(** * Shop-BE, [Routers/user.py]: identity workflow and address book

    A shallow embedding of the request handlers of [Routers/user.py]
    (captcha issuance, register, login, recover, profile update and the
    address book), followed by the properties of the specification that
    can be settled on them.

    Layout: data model, collaborators, a small state-and-exception monad,
    the SQLAlchemy query fragment the handlers use, the handlers, and then
    the lemmas and theorems. *)

From Stdlib Require Import ZArith.
From stdpp Require Import gmap strings list.

Open Scope string_scope.
Open Scope list_scope.

(** ** Data model *)

(** Modelled from the spec: [Models/user.py] ([Permission]) is not part of
    the sources at hand.  Two roles, totally ordered USER < ADMIN.  The
    handlers write [Permission.ADMIN()] and [body.permission()] for the
    stored representation and [body.permission.value] for the compared
    one; the column is modelled as holding the role itself. *)
Module Permission.
Inductive t := USER | ADMIN.

Definition eqb (a b : t) : bool :=
  match a, b with
  | USER, USER | ADMIN, ADMIN => true
  | _, _ => false
  end.

(** [leb a b]: role [a] is at most role [b]. *)
Definition leb (a b : t) : bool :=
  match a, b with
  | ADMIN, USER => false
  | _, _ => true
  end.
End Permission.

(** Modelled from the spec: [Models/database.py] ([UserDb]) is not part of
    the sources at hand; the columns are the ones [user_reg] fills in. *)
Module UserDb.
Record t := mk {
  uid : string;
  email : string;
  username : string;
  password : string;
  permission : Permission.t;
  birthday : option string;
  gender : Z
}.

Definition set_password (p : string) (r : t) : t :=
  mk (uid r) (email r) (username r) p (permission r) (birthday r) (gender r).
Definition set_permission (p : Permission.t) (r : t) : t :=
  mk (uid r) (email r) (username r) (password r) p (birthday r) (gender r).
Definition set_birthday (b : option string) (r : t) : t :=
  mk (uid r) (email r) (username r) (password r) (permission r) b (gender r).
Definition set_gender (g : Z) (r : t) : t :=
  mk (uid r) (email r) (username r) (password r) (permission r) (birthday r) g.

(** The columns that occur in filter criteria. *)
Inductive col := c_uid | c_email | c_username.

Definition get (c : col) (r : t) : string :=
  match c with
  | c_uid => uid r
  | c_email => email r
  | c_username => username r
  end.

Definition col_eqb (a b : col) : bool :=
  match a, b with
  | c_uid, c_uid | c_email, c_email | c_username, c_username => true
  | _, _ => false
  end.
End UserDb.

(** Modelled from the spec: [Models/database.py] ([AddressDb]) is not part
    of the sources at hand; the columns are the ones [get_address] reads. *)
Module AddressDb.
Record t := mk {
  uid : string;
  aid : string;
  is_default : bool;
  address : string;
  phone : string;
  name : string
}.

Definition set_is_default (b : bool) (r : t) : t :=
  mk (uid r) (aid r) b (address r) (phone r) (name r).

Inductive col := c_uid | c_aid.

Definition get (c : col) (r : t) : string :=
  match c with
  | c_uid => uid r
  | c_aid => aid r
  end.

Definition col_eqb (a b : col) : bool :=
  match a, b with
  | c_uid, c_uid | c_aid, c_aid => true
  | _, _ => false
  end.
End AddressDb.

(** Modelled from the spec: [Models/user.py] ([User], the value that
    [get_current_user] hands to a handler) is not part of the sources at
    hand; the handlers read [uid] and pass the whole value to
    [verify_user]. *)
Module User.
Record t := mk {
  uid : string;
  username : string;
  permission : Permission.t
}.
End User.

(** Modelled from the spec: [Models/user.py] ([UpdateUser]) is not part of
    the sources at hand; the four optional fields are the ones
    [user_update] reads.  [gender] holds [body.gender.value]. *)
Module UpdateUser.
Record t := mk {
  birthday : option string;
  gender : option Z;
  permission : option Permission.t;
  password : option string
}.
End UpdateUser.

(** Modelled from the spec: [Models/user.py] ([AddressRequest]) is not
    part of the sources at hand.  Its fields are the Address fields of the
    data model that the client supplies; [model_dump] yields exactly these
    four, and [to_address] adds the owner and a fresh [aid]. *)
Module AddressRequest.
Record t := mk {
  is_default : bool;
  address : string;
  phone : string;
  name : string
}.

Definition to_address (fresh_aid : string) (b : t) (uid : string) : AddressDb.t :=
  AddressDb.mk uid fresh_aid (is_default b) (address b) (phone b) (name b).

(** [Query.update(body.model_dump())] on one row. *)
Definition model_dump_onto (b : t) (r : AddressDb.t) : AddressDb.t :=
  AddressDb.mk (AddressDb.uid r) (AddressDb.aid r)
               (is_default b) (address b) (phone b) (name b).
End AddressRequest.

Module Token.
Record t := mk { access_token : string; token_type : string }.
End Token.

(** [Services/Mail/mail.py], [Purpose]. *)
Inductive Purpose := REGISTER | RECOVER_PASSWORD.

(** ** Failures *)

(** What a handler can raise: the members of [ExceptionResponseEnum] used
    in the file, a failed [assert], and an exception out of [db.commit()]. *)
Inductive Exn :=
| INVALID_OPERATION
| RESOURCE_CONFILCT
| CAPTCHA_FAILED
| AUTH_FAILED
| NOT_FOUND
| AssertionError
| SQLAlchemyError.

(** The error taxonomy of the specification. *)
Inductive ErrorKind :=
| InvalidOperation
| ResourceConflict
| CaptchaFailed
| AuthFailed
| AuthorizationFailed
| NotFound.

(** Which kind of the taxonomy a raised exception surfaces as; an
    exception that is not an [ExceptionResponseEnum] member surfaces as
    none of them (the routing layer answers with a server error). *)
Definition kind_of (e : Exn) : option ErrorKind :=
  match e with
  | INVALID_OPERATION => Some InvalidOperation
  | RESOURCE_CONFILCT => Some ResourceConflict
  | CAPTCHA_FAILED => Some CaptchaFailed
  | AUTH_FAILED => Some AuthFailed
  | NOT_FOUND => Some NotFound
  | AssertionError => None
  | SQLAlchemyError => None
  end.

Inductive Response (A : Type) :=
| Ok (a : A)
| Raise (e : Exn).
Arguments Ok {A} a.
Arguments Raise {A} e.

Definition is_ok {A} (r : Response A) : bool :=
  match r with Ok _ => true | Raise _ => false end.

(** ** State *)

(** The rows of the record store, in storage order. *)
Record Db := mkDb {
  users : list UserDb.t;
  addresses : list AddressDb.t
}.

(** The committed record store and the challenge cache.  The cache's
    time-to-live is outside the model: an entry stays until deleted. *)
Record World := mkWorld {
  db : Db;
  cache : gmap string string
}.

Definition empty_world : World := mkWorld (mkDb [] []) ∅.

(** ** Collaborators

    Library and repository code the handlers call that is not part of the
    sources at hand, taken as parameters:
    - [validate_email e]: [email_validator.validate_email] with
      [check_deliverability=False]; [None] is [EmailNotValidError], [Some n]
      carries [emailinfo.normalized];
    - [parse_gender s]: [Gender(int(s)).value]; [None] is [ValueError];
    - [hashpw p salt], [checkpw p h]: [bcrypt];
    - [send_captcha email purpose ip]: the mailer, returns the code it sent;
    - [create_access_token data minutes]: the token issuer, applied to the
      payload dictionary and the expiry window;
    - [ACCESS_TOKEN_EXPIRE_MINUTES]: the fixed expiry window. *)
Class Collaborators := {
  validate_email : string -> option string;
  parse_gender : string -> option Z;
  hashpw : string -> string -> string;
  checkpw : string -> string -> bool;
  send_captcha : string -> Purpose -> string -> string;
  create_access_token : list (string * string) -> Z -> string;
  ACCESS_TOKEN_EXPIRE_MINUTES : Z
}.

(** Modelled from the spec: [verify_user] of [Services/Security/user.py]
    is not part of the sources at hand.  The caller's role must reach the
    required one; the handlers use the answer as the operand of [assert]. *)
Definition verify_user (user : User.t) (required : Permission.t) : bool :=
  Permission.leb required (User.permission user).

(** ** Handler monad: world passing with exceptions

    A handler reads and writes the cache at once; changes to the record
    store are made on a session ([Db] value) and reach the world only at
    [db_commit]. *)
Definition M (A : Type) : Type := World -> Response A * World.

Definition ret {A} (a : A) : M A := fun w => (Ok a, w).
Definition raise {A} (e : Exn) : M A := fun w => (Raise e, w).
Definition bind {A B} (m : M A) (k : A -> M B) : M B :=
  fun w => match m w with
           | (Ok a, w') => k a w'
           | (Raise e, w') => (Raise e, w')
           end.

Notation "'let!' x ':=' m 'in' k" := (bind m (fun x => k))
  (at level 10, x name, m at level 100, k at level 200).
Notation "'run!' m 'in' k" := (bind m (fun _ => k))
  (at level 10, m at level 100, k at level 200).

(** [x is not None]. *)
Definition is_not_None {A} (o : option A) : bool :=
  match o with Some _ => true | None => false end.

(** [try: ... except: raise e] around a collaborator that can fail. *)
Definition or_raise {A} (e : Exn) (o : option A) : M A :=
  match o with Some a => ret a | None => raise e end.

(** [assert b]. *)
Definition py_assert (b : bool) : M unit :=
  if b then ret tt else raise AssertionError.

(** [Depends(get_db)]: a session on the committed store. *)
Definition get_db : M Db := fun w => (Ok (db w), w).

(** [db.commit()].  [ok] says whether the store accepts the transaction;
    when it does not, the commit raises and the store keeps its rows. *)
Definition db_commit (ok : bool) (session : Db) : M unit :=
  fun w => if ok then (Ok tt, mkWorld session (cache w))
           else (Raise SQLAlchemyError, w).

Definition cache_get (key : string) : M (option string) :=
  fun w => (Ok (cache w !! key), w).
Definition cache_set (key value : string) : M unit :=
  fun w => (Ok tt, mkWorld (db w) (<[key := value]> (cache w))).
Definition cache_delete (key : string) : M unit :=
  fun w => (Ok tt, mkWorld (db w) (delete key (cache w))).

(** ** The SQLAlchemy fragment *)

Module Sql.
Section Clauses.
Context {R C : Type} (get : C -> R -> string) (col_eqb : C -> C -> bool).

(** An operand of [==]: a mapped column, or a Python value that is
    turned into a fresh bound parameter. *)
Inductive operand := Col (c : C) | Lit (v : string).

(** [left == right], a [BinaryExpression]. *)
Inductive clause := Eq (l r : operand).

(** [hash(l) == hash(r)] on the operand objects: hashes follow object
    identity, and a bound parameter is a new object each time. *)
Definition same_object (l r : operand) : bool :=
  match l, r with
  | Col a, Col b => col_eqb a b
  | _, _ => false
  end.

(** [BinaryExpression.__bool__] for the operator [==]. *)
Definition truthy (c : clause) : bool :=
  match c with Eq l r => same_object l r end.

(** Python's [a or b] and [a and b] on clause objects: they return
    one of the operands, chosen by the truth value of the first. *)
Definition py_or (a b : clause) : clause := if truthy a then a else b.
Definition py_and (a b : clause) : clause := if truthy a then b else a.

Definition eval (o : operand) (row : R) : string :=
  match o with Col c => get c row | Lit v => v end.

(** The WHERE condition on one row. *)
Definition holds (c : clause) (row : R) : bool :=
  match c with Eq l r => String.eqb (eval l row) (eval r row) end.

(** [query.filter(c).all()]. *)
Definition all (c : clause) (rows : list R) : list R :=
  List.filter (holds c) rows.

(** Position of the first row that satisfies [c]. *)
Fixpoint first_index (c : clause) (rows : list R) : option nat :=
  match rows with
  | [] => None
  | r :: rest => if holds c r then Some 0%nat
                 else option_map S (first_index c rest)
  end.

(** [query.filter(c).first()]: the row and where it is stored. *)
Definition first (c : clause) (rows : list R) : option (nat * R) :=
  match first_index c rows with
  | Some i => match rows !! i with
              | Some r => Some (i, r)
              | None => None
              end
  | None => None
  end.

(** [query.filter(c).update(values)]: every matching row is changed. *)
Definition update (c : clause) (f : R -> R) (rows : list R) : list R :=
  List.map (fun r => if holds c r then f r else r) rows.
End Clauses.

Arguments operand : clear implicits.
Arguments clause : clear implicits.
Arguments Col {C} c.
Arguments Lit {C} v.
Arguments Eq {C} l r.
End Sql.

Abbreviation ucol c := (Sql.Col (C:=UserDb.col) c).
Abbreviation acol c := (Sql.Col (C:=AddressDb.col) c).

Definition u_or := Sql.py_or UserDb.col_eqb.
Definition a_and := Sql.py_and AddressDb.col_eqb.
Definition u_first := Sql.first UserDb.get.
Definition a_first := Sql.first AddressDb.get.
Definition a_all := Sql.all AddressDb.get.
Definition a_update := Sql.update AddressDb.get.

(** ** Handlers *)

Section Handlers.
Context `{collab : Collaborators}.

(** [request.client.host if request.client else "Unknown"]. *)
Definition client_ip (client : option string) : string :=
  match client with Some host => host | None => "Unknown" end.

(** GET /user/captcha/register.  [request_id] is [uuid4().hex]. *)
Definition user_req_register_captcha
    (client : option string) (request_id : string) (email : string) : M string :=
  let! normalized_email := or_raise INVALID_OPERATION (validate_email email) in
  let ip := client_ip client in
  let captcha := send_captcha normalized_email REGISTER ip in
  run! cache_set request_id captcha in
  ret request_id.

(** GET /user/captcha/recover. *)
Definition user_req_recover_captcha
    (client : option string) (request_id : string) (email : string) : M string :=
  let! normalized_email := or_raise INVALID_OPERATION (validate_email email) in
  let ip := client_ip client in
  let captcha := send_captcha normalized_email RECOVER_PASSWORD ip in
  run! cache_set request_id captcha in
  ret request_id.

(** The criterion of the duplicate check of [user_reg]:
    [UserDb.email == normalized_email or UserDb.username == username]. *)
Definition duplicate_clause (normalized_email username : string)
  : Sql.clause UserDb.col :=
  u_or (Sql.Eq (ucol UserDb.c_email) (Sql.Lit normalized_email))
       (Sql.Eq (ucol UserDb.c_username) (Sql.Lit username)).

(** POST /user/register.  [salt] is [bcrypt.gensalt()], [commit_ok] the
    outcome of [db.commit()].  The password column is modelled as holding
    the digest; that this handler stores the bytes [hashpw] returns while
    [user_recover] and [user_update] store their decoded text is not
    modelled. *)
Definition user_reg (salt : string) (commit_ok : bool)
    (email username password gender captcha request_id : string) : M unit :=
  let! normalized_email := or_raise INVALID_OPERATION (validate_email email) in
  let! session := get_db in
  let is_init_user :=
    match users session with [] => true | _ :: _ => false end in
  let! gender_data := or_raise INVALID_OPERATION (parse_gender gender) in
  if is_not_None (u_first (duplicate_clause normalized_email username)
                          (users session))
  then raise RESOURCE_CONFILCT
  else
    let! cached_captcha := cache_get request_id in
    match cached_captcha with
    | None => raise CAPTCHA_FAILED
    | Some code =>
      if negb (String.eqb code captcha) then raise CAPTCHA_FAILED
      else
        run! cache_delete request_id in
        let row :=
          UserDb.mk request_id normalized_email username
                    (hashpw password salt)
                    (if is_init_user then Permission.ADMIN else Permission.USER)
                    None gender_data in
        run! db_commit commit_ok
               (mkDb (users session ++ [row]) (addresses session)) in
        ret tt
    end.

(** POST /user/login. *)
Definition user_login (username password : string) : M Token.t :=
  let! session := get_db in
  match u_first (Sql.Eq (ucol UserDb.c_username) (Sql.Lit username)) (users session) with
  | None => raise AUTH_FAILED
  | Some (_, user) =>
    if negb (checkpw password (UserDb.password user)) then raise AUTH_FAILED
    else
      let token :=
        create_access_token
          [("sub", UserDb.username user); ("id", UserDb.uid user)]
          ACCESS_TOKEN_EXPIRE_MINUTES in
      ret (Token.mk token "bearer")
  end.

(** POST /user/recover. *)
Definition user_recover (salt : string) (commit_ok : bool)
    (email password captcha request_id : string) : M string :=
  let! session := get_db in
  match u_first (Sql.Eq (ucol UserDb.c_email) (Sql.Lit email)) (users session) with
  | None => raise NOT_FOUND
  | Some (i, record) =>
    let! cached_captcha := cache_get request_id in
    match cached_captcha with
    | None => raise CAPTCHA_FAILED
    | Some code =>
      if negb (String.eqb code captcha) then raise CAPTCHA_FAILED
      else
        run! cache_delete request_id in
        let record := UserDb.set_password (hashpw password salt) record in
        let username := UserDb.username record in
        run! db_commit commit_ok
               (mkDb (<[i := record]> (users session)) (addresses session)) in
        ret username
    end
  end.

(** PUT /user/profile/{uid}.  [uid] is [uid.hex]. *)
Definition user_update (salt : string) (commit_ok : bool)
    (uid : string) (body : UpdateUser.t) (user : User.t) : M unit :=
  run! (if negb (String.eqb uid (User.uid user))
        then py_assert (verify_user user Permission.ADMIN)
        else ret tt) in
  let! session := get_db in
  match u_first (Sql.Eq (ucol UserDb.c_uid) (Sql.Lit uid)) (users session) with
  | Some (i, record) =>
    let record :=
      match UpdateUser.birthday body with
      | Some b => UserDb.set_birthday (Some b) record
      | None => record
      end in
    let record :=
      match UpdateUser.gender body with
      | Some g => UserDb.set_gender g record
      | None => record
      end in
    let! record :=
      match UpdateUser.permission body with
      | Some p =>
        if negb (Permission.eqb (UserDb.permission record) p)
        then run! py_assert (verify_user user Permission.ADMIN) in
             ret (UserDb.set_permission p record)
        else ret record
      | None => ret record
      end in
    let record :=
      match UpdateUser.password body with
      | Some pw => UserDb.set_password (hashpw pw salt) record
      | None => record
      end in
    run! db_commit commit_ok
           (mkDb (<[i := record]> (users session)) (addresses session)) in
    ret tt
  | None => raise NOT_FOUND
  end.

(** GET /user/profile. *)
Definition user_profile (user : User.t) : M User.t := ret user.

(** GET /user/address. *)
Definition get_address (user : User.t) : M (list AddressDb.t) :=
  let! session := get_db in
  ret (a_all (Sql.Eq (acol AddressDb.c_uid) (Sql.Lit (User.uid user)))
             (addresses session)).

(** POST /user/address.  [fresh_aid] is the identifier [to_address]
    gives the new row. *)
Definition add_address (fresh_aid : string) (commit_ok : bool)
    (body : AddressRequest.t) (user : User.t) : M unit :=
  let! session := get_db in
  let rows :=
    if AddressRequest.is_default body
    then a_update (Sql.Eq (acol AddressDb.c_uid) (Sql.Lit (User.uid user)))
                  (AddressDb.set_is_default false) (addresses session)
    else addresses session in
  let rows := rows ++ [AddressRequest.to_address fresh_aid body (User.uid user)] in
  run! db_commit commit_ok (mkDb (users session) rows) in
  ret tt.

(** The criterion both [update_address] and [delete_address] build:
    [AddressDb.uid == user.uid and AddressDb.aid == aid.hex]. *)
Definition owned_address_clause (user : User.t) (aid : string)
  : Sql.clause AddressDb.col :=
  a_and (Sql.Eq (acol AddressDb.c_uid) (Sql.Lit (User.uid user)))
        (Sql.Eq (acol AddressDb.c_aid) (Sql.Lit aid)).

(** [record is not None] where [record] is a [Query] object (built by
    [filter], never fetched): a query object is never [None]. *)
Definition query_is_not_None (record : Sql.clause AddressDb.col) : bool := true.

(** PUT /user/address/{aid}.  [aid] is [aid.hex]. *)
Definition update_address (commit_ok : bool)
    (aid : string) (body : AddressRequest.t) (user : User.t) : M unit :=
  let! session := get_db in
  let record := owned_address_clause user aid in
  if query_is_not_None record then
    let rows :=
      if AddressRequest.is_default body
      then a_update (Sql.Eq (acol AddressDb.c_uid) (Sql.Lit (User.uid user)))
                    (AddressDb.set_is_default false) (addresses session)
      else addresses session in
    let rows := a_update record (AddressRequest.model_dump_onto body) rows in
    run! db_commit commit_ok (mkDb (users session) rows) in
    ret tt
  else raise NOT_FOUND.

(** DELETE /user/address/{aid}. *)
Definition delete_address (commit_ok : bool)
    (aid : string) (user : User.t) : M unit :=
  let! session := get_db in
  match a_first (owned_address_clause user aid) (addresses session) with
  | Some (i, record) =>
    run! db_commit commit_ok
           (mkDb (users session) (delete i (addresses session))) in
    ret tt
  | None => raise NOT_FOUND
  end.
End Handlers.

(** ** Requests and reachable worlds *)

Inductive request :=
| CaptchaRegister (client : option string) (request_id email : string)
| CaptchaRecover (client : option string) (request_id email : string)
| Register (salt : string) (commit_ok : bool)
           (email username password gender captcha request_id : string)
| Login (username password : string)
| Recover (salt : string) (commit_ok : bool)
          (email password captcha request_id : string)
| UpdateProfile (salt : string) (commit_ok : bool)
                (uid : string) (body : UpdateUser.t) (user : User.t)
| Profile (user : User.t)
| GetAddress (user : User.t)
| AddAddress (fresh_aid : string) (commit_ok : bool)
             (body : AddressRequest.t) (user : User.t)
| UpdateAddress (commit_ok : bool) (aid : string)
                (body : AddressRequest.t) (user : User.t)
| DeleteAddress (commit_ok : bool) (aid : string) (user : User.t).

Section Reachability.
Context `{collab : Collaborators}.

(** The world after serving one request. *)
Definition handle (r : request) (w : World) : World :=
  match r with
  | CaptchaRegister c rid e => snd (user_req_register_captcha c rid e w)
  | CaptchaRecover c rid e => snd (user_req_recover_captcha c rid e w)
  | Register s ok e u p g c rid => snd (user_reg s ok e u p g c rid w)
  | Login u p => snd (user_login u p w)
  | Recover s ok e p c rid => snd (user_recover s ok e p c rid w)
  | UpdateProfile s ok uid b u => snd (user_update s ok uid b u w)
  | Profile u => snd (user_profile u w)
  | GetAddress u => snd (get_address u w)
  | AddAddress a ok b u => snd (add_address a ok b u w)
  | UpdateAddress ok a b u => snd (update_address ok a b u w)
  | DeleteAddress ok a u => snd (delete_address ok a u w)
  end.

(** Serving a sequence of requests, oldest first. *)
Definition serve (rs : list request) (w : World) : World :=
  fold_left (fun w r => handle r w) rs w.

Inductive reachable : World -> Prop :=
| reach_init : reachable empty_world
| reach_step r w : reachable w -> reachable (handle r w).

(** Every stored email is its own normal form. *)
Definition emails_normalized (w : World) : Prop :=
  Forall (fun u => validate_email (UserDb.email u) = Some (UserDb.email u))
         (users (db w)).

(** One request leaves the user table alone, appends one row whose
    email is a normal form, or replaces one row by a row with the same
    email. *)
Inductive users_step (us : list UserDb.t) : list UserDb.t -> Prop :=
| us_same : users_step us us
| us_append row e :
    validate_email e = Some (UserDb.email row) ->
    users_step us (us ++ [row])
| us_replace i r r' :
    us !! i = Some r ->
    UserDb.email r' = UserDb.email r ->
    users_step us (<[i := r']> us).
End Reachability.

(** Number of addresses of [uid] flagged as default. *)
Definition count_default (uid : string) (rows : list AddressDb.t) : nat :=
  length (List.filter
            (fun a => String.eqb (AddressDb.uid a) uid && AddressDb.is_default a)
            rows).

(** The single-default invariant of the address book. *)
Definition single_default (w : World) : Prop :=
  forall uid, (count_default uid (addresses (db w)) <= 1)%nat.

(** [uid] owns an address with that [aid]. *)
Definition owns_address (uid aid : string) (rows : list AddressDb.t) : bool :=
  existsb (fun a => String.eqb (AddressDb.uid a) uid && String.eqb (AddressDb.aid a) aid)
          rows.

(** ** Abbreviations used in the statements *)

Section Abbreviations.
Context `{collab : Collaborators}.

(** The row [user_reg] inserts: [uid] is the request identifier, the
    role follows from whether the store holds a user. *)
Definition new_user_row (salt normalized_email username password request_id : string)
    (gender_value : Z) (w : World) : UserDb.t :=
  UserDb.mk request_id normalized_email username (hashpw password salt)
            (match users (db w) with
             | [] => Permission.ADMIN
             | _ :: _ => Permission.USER
             end)
            None gender_value.

(** The row [user_update] writes back when no assertion fails. *)
Definition patch_profile (salt : string) (body : UpdateUser.t) (record : UserDb.t)
  : UserDb.t :=
  let record :=
    match UpdateUser.birthday body with
    | Some b => UserDb.set_birthday (Some b) record
    | None => record
    end in
  let record :=
    match UpdateUser.gender body with
    | Some g => UserDb.set_gender g record
    | None => record
    end in
  let record :=
    match UpdateUser.permission body with
    | Some p => if negb (Permission.eqb (UserDb.permission record) p)
                then UserDb.set_permission p record else record
    | None => record
    end in
  match UpdateUser.password body with
  | Some pw => UserDb.set_password (hashpw pw salt) record
  | None => record
  end.

(** The patch carries a role that differs from the stored one. *)
Definition changes_permission (body : UpdateUser.t) (record : UserDb.t) : bool :=
  match UpdateUser.permission body with
  | Some p => negb (Permission.eqb (UserDb.permission record) p)
  | None => false
  end.

(** The checks [user_reg] makes before it reads the challenge pass:
    the email validates, the gender parses, the duplicate query is
    empty. *)
Definition reg_checks_pass (email username gender : string) (w : World) : Prop :=
  exists n g, validate_email email = Some n /\ parse_gender gender = Some g /\
              is_not_None (u_first (duplicate_clause n username) (users (db w)))
              = false.

(** The check [user_recover] makes before it reads the challenge
    passes: the email query returns a row. *)
Definition recover_checks_pass (email : string) (w : World) : Prop :=
  is_not_None (u_first (Sql.Eq (ucol UserDb.c_email) (Sql.Lit email)) (users (db w)))
  = true.

(** No register or recover request that carries [request_id] succeeds
    in [w], whatever else it carries, and none changes [w]. *)
Definition consumed (request_id : string) (w : World) : Prop :=
  (forall salt commit_ok email username password gender captcha,
      let out := user_reg salt commit_ok email username password gender
                          captcha request_id w in
      is_ok (fst out) = false /\ snd out = w) /\
  (forall salt commit_ok email password captcha,
      let out := user_recover salt commit_ok email password captcha request_id w in
      is_ok (fst out) = false /\ snd out = w).
End Abbreviations.

(** [query.filter(AddressDb.uid == uid).update({"is_default": False})]. *)
Definition clear_defaults (uid : string) (rows : list AddressDb.t) : list AddressDb.t :=
  a_update (Sql.Eq (acol AddressDb.c_uid) (Sql.Lit uid))
           (AddressDb.set_is_default false) rows.

Ltac unfold_monad :=
  unfold bind, ret, raise, or_raise, py_assert, get_db, db_commit,
         cache_get, cache_set, cache_delete in *.

(** ** A concrete environment for evaluating the handlers *)

Module Demo.
Fixpoint has_at (s : string) : bool :=
  match s with
  | EmptyString => false
  | String c rest => Ascii.eqb c (Ascii.ascii_of_nat 64) || has_at rest
  end.

(** Accepts what contains an [@]; one address is given a normal form
    that differs from it (lower-cased domain). *)
Definition validate_email (e : string) : option string :=
  if String.eqb e "Bob@EXAMPLE.com" then Some "Bob@example.com"
  else if has_at e then Some e else None.

Definition parse_gender (s : string) : option Z :=
  if String.eqb s "0" then Some 0%Z
  else if String.eqb s "1" then Some 1%Z
  else if String.eqb s "2" then Some 2%Z
  else None.

Definition hashpw (p salt : string) : string := (p ++ "$" ++ salt)%string.
Definition checkpw (p h : string) : bool := String.prefix (p ++ "$")%string h.
Definition send_captcha (email : string) (purpose : Purpose) (ip : string) : string :=
  "271828".
Definition create_access_token (data : list (string * string)) (minutes : Z) : string :=
  String.concat "." (List.map snd data).

#[global] Instance env : Collaborators :=
  Build_Collaborators validate_email parse_gender hashpw checkpw
                      send_captcha create_access_token 30.

Definition alice_row : UserDb.t :=
  UserDb.mk "a11ce" "alice@example.com" "alice" "pw-a$s1" Permission.ADMIN None 0.
Definition bob_row : UserDb.t :=
  UserDb.mk "b0b" "bob@example.com" "bob" "pw-b$s2" Permission.USER None 1.

Definition alice : User.t := User.mk "a11ce" "alice" Permission.ADMIN.
Definition bob : User.t := User.mk "b0b" "bob" Permission.USER.

Definition addr (uid aid : string) (d : bool) : AddressDb.t :=
  AddressDb.mk uid aid d "1 Main St" "555" "home".

(** Two users, no address, one outstanding challenge. *)
Definition two_users : World :=
  mkWorld (mkDb [alice_row; bob_row] []) {[ "r1" := "271828" ]}.

(** Bob holds two addresses, neither is the default. *)
Definition two_addresses : World :=
  mkWorld (mkDb [alice_row; bob_row]
                [addr "b0b" "ad1" false; addr "b0b" "ad2" false]) ∅.

(** Alice and Bob hold one address each. *)
Definition one_each : World :=
  mkWorld (mkDb [alice_row; bob_row]
                [addr "a11ce" "ad0" true; addr "b0b" "ad1" true]) ∅.

(** No user yet, one outstanding challenge. *)
Definition fresh : World := mkWorld (mkDb [] []) {[ "r1" := "271828" ]}.

Definition empty_patch : UpdateUser.t := UpdateUser.mk None None None None.
Definition promote_patch : UpdateUser.t :=
  UpdateUser.mk None None (Some Permission.ADMIN) None.
Definition default_address : AddressRequest.t :=
  AddressRequest.mk true "2 Side St" "556" "work".

(** Alice and Bob register through the two-step flow, then Bob asks for
    a recovery challenge. *)
Definition history : list request :=
  [ CaptchaRegister None "r1" "alice@example.com";
    Register "s1" true "alice@example.com" "alice" "pw-a" "0" "271828" "r1";
    CaptchaRegister None "r2" "bob@example.com";
    Register "s2" true "bob@example.com" "bob" "pw-b" "1" "271828" "r2";
    CaptchaRecover None "r3" "bob@example.com" ].

Definition served : World := serve history empty_world.

(** The first registrant of [history], as the handlers see her. *)
Definition admin : User.t := User.mk "r1" "alice" Permission.ADMIN.

Definition birthday_password_patch : UpdateUser.t :=
  UpdateUser.mk (Some "2000-01-01") None None (Some "hunter2").
End Demo.

(** ** Observations on requests and rows *)

Section Observations.
Context `{collab : Collaborators}.

(** The exception a handler run ends with, if any. *)
Definition failure {A} (out : Response A * World) : option Exn :=
  match fst out with
  | Ok _ => None
  | Raise e => Some e
  end.

(** The exception raised when a request is served, if any. *)
Definition outcome (r : request) (w : World) : option Exn :=
  match r with
  | CaptchaRegister c rid e => failure (user_req_register_captcha c rid e w)
  | CaptchaRecover c rid e => failure (user_req_recover_captcha c rid e w)
  | Register s ok e u p g c rid => failure (user_reg s ok e u p g c rid w)
  | Login u p => failure (user_login u p w)
  | Recover s ok e p c rid => failure (user_recover s ok e p c rid w)
  | UpdateProfile s ok uid b u => failure (user_update s ok uid b u w)
  | Profile u => failure (user_profile u w)
  | GetAddress u => failure (get_address u w)
  | AddAddress a ok b u => failure (add_address a ok b u w)
  | UpdateAddress ok a b u => failure (update_address ok a b u w)
  | DeleteAddress ok a u => failure (delete_address ok a u w)
  end.
End Observations.

(** The requests whose handlers write the user table, the address table
    and the cache. *)
Definition writes_users (r : request) : bool :=
  match r with
  | Register _ _ _ _ _ _ _ _ | Recover _ _ _ _ _ _ | UpdateProfile _ _ _ _ _ => true
  | _ => false
  end.

Definition writes_addresses (r : request) : bool :=
  match r with
  | AddAddress _ _ _ _ | UpdateAddress _ _ _ _ | DeleteAddress _ _ _ => true
  | _ => false
  end.

Definition writes_cache (r : request) : bool :=
  match r with
  | CaptchaRegister _ _ _ | CaptchaRecover _ _ _
  | Register _ _ _ _ _ _ _ _ | Recover _ _ _ _ _ _ => true
  | _ => false
  end.

(** The requests served by [update_address]. *)
Definition is_update_address (r : request) : bool :=
  match r with
  | UpdateAddress _ _ _ _ => true
  | _ => false
  end.

(** The requests that issue a challenge. *)
Definition issues_challenge (r : request) : bool :=
  match r with
  | CaptchaRegister _ _ _ | CaptchaRecover _ _ _ => true
  | _ => false
  end.

(** The exceptions the handler of a request has a [raise], an [assert]
    or a commit for. *)
Definition may_raise (r : request) : list Exn :=
  match r with
  | CaptchaRegister _ _ _ | CaptchaRecover _ _ _ => [INVALID_OPERATION]
  | Register _ _ _ _ _ _ _ _ =>
    [INVALID_OPERATION; RESOURCE_CONFILCT; CAPTCHA_FAILED; SQLAlchemyError]
  | Login _ _ => [AUTH_FAILED]
  | Recover _ _ _ _ _ _ => [NOT_FOUND; CAPTCHA_FAILED; SQLAlchemyError]
  | UpdateProfile _ _ _ _ _ => [AssertionError; NOT_FOUND; SQLAlchemyError]
  | Profile _ | GetAddress _ => []
  | AddAddress _ _ _ _ | UpdateAddress _ _ _ _ => [SQLAlchemyError]
  | DeleteAddress _ _ _ => [NOT_FOUND; SQLAlchemyError]
  end.

(** The columns of a user that no handler assigns after the insert. *)
Definition identity (u : UserDb.t) : string * string * string :=
  (UserDb.uid u, UserDb.email u, UserDb.username u).

(** The addresses of [uid], in storage order. *)
Definition owned_rows (uid : string) (rows : list AddressDb.t) : list AddressDb.t :=
  List.filter (fun a => String.eqb (AddressDb.uid a) uid) rows.

(** ** Facts about the query fragment *)

Section SqlFacts.
Context {R C : Type} (get : C -> R -> string) (col_eqb : C -> C -> bool).
Implicit Types (c : Sql.clause C) (rows : list R).

Lemma py_or_literal (col : C) (v : string) c :
  Sql.py_or col_eqb (Sql.Eq (Sql.Col col) (Sql.Lit v)) c = c.
Proof. reflexivity. Qed.

Lemma py_and_literal (col : C) (v : string) c :
  Sql.py_and col_eqb (Sql.Eq (Sql.Col col) (Sql.Lit v)) c
  = Sql.Eq (Sql.Col col) (Sql.Lit v).
Proof. reflexivity. Qed.

Lemma holds_col_lit (col : C) (v : string) (r : R) :
  Sql.holds get (Sql.Eq (Sql.Col col) (Sql.Lit v)) r = true <-> get col r = v.
Proof. simpl. apply String.eqb_eq. Qed.

Lemma first_index_Some c rows i :
  Sql.first_index get c rows = Some i ->
  exists r, rows !! i = Some r /\ Sql.holds get c r = true /\
            forall j r', (j < i)%nat -> rows !! j = Some r' ->
                         Sql.holds get c r' = false.
Proof.
  revert i. induction rows as [|r rows IH]; intros i; simpl; [discriminate|].
  destruct (Sql.holds get c r) eqn:Hr.
  - intros [= <-]. exists r. repeat split; auto. intros j r' Hj. lia.
  - destruct (Sql.first_index get c rows) as [k|]; simpl; [|discriminate].
    intros [= <-]. destruct (IH k eq_refl) as (r0 & Hk & Hh & Hlt).
    exists r0. repeat split; auto.
    intros [|j] r' Hj; simpl.
    + intros [= <-]. exact Hr.
    + apply Hlt. lia.
Qed.

Lemma first_index_None c rows :
  Sql.first_index get c rows = None <->
  forall r, r ∈ rows -> Sql.holds get c r = false.
Proof.
  induction rows as [|r rows IH]; simpl.
  - split; [intros _ r Hr; inversion Hr | reflexivity].
  - destruct (Sql.holds get c r) eqn:Hr.
    + split; [discriminate|]. intros Hall.
      rewrite (Hall r) in Hr; [discriminate | apply list_elem_of_here].
    + destruct (Sql.first_index get c rows) as [k|]; simpl.
      * split; [discriminate|]. intros Hall.
        assert (Some k = None) as Hk; [|discriminate].
        apply IH. intros r' Hr'. apply Hall. by apply list_elem_of_further.
      * split; [|reflexivity]. intros _ r' Hr'.
        apply elem_of_cons in Hr' as [-> | Hr']; [exact Hr|].
        destruct IH as [IH _]. by apply IH.
Qed.

Lemma first_Some c rows i r :
  Sql.first get c rows = Some (i, r) ->
  rows !! i = Some r /\ Sql.holds get c r = true /\
  forall j r', (j < i)%nat -> rows !! j = Some r' -> Sql.holds get c r' = false.
Proof.
  unfold Sql.first. destruct (Sql.first_index get c rows) as [k|] eqn:Hk;
    [|discriminate].
  destruct (first_index_Some _ _ _ Hk) as (r0 & Hl & Hh & Hlt).
  rewrite Hl. intros [= <- <-]. auto.
Qed.

Lemma first_None c rows :
  Sql.first get c rows = None <->
  forall r, r ∈ rows -> Sql.holds get c r = false.
Proof.
  rewrite <- first_index_None. unfold Sql.first.
  destruct (Sql.first_index get c rows) as [k|] eqn:Hk.
  - destruct (first_index_Some _ _ _ Hk) as (r0 & Hl & _). rewrite Hl.
    split; discriminate.
  - split; reflexivity.
Qed.

(** [first] returns the row that [List.find] returns. *)
Lemma first_find c rows :
  snd <$> Sql.first get c rows = List.find (Sql.holds get c) rows.
Proof.
  unfold Sql.first. induction rows as [|r rows IH]; simpl; [reflexivity|].
  destruct (Sql.holds get c r); simpl; [reflexivity|].
  destruct (Sql.first_index get c rows) as [k|]; simpl in *; [|exact IH].
  destruct (rows !! k); exact IH.
Qed.

Lemma first_is_Some c rows :
  is_not_None (Sql.first get c rows) = true <->
  exists r, r ∈ rows /\ Sql.holds get c r = true.
Proof.
  destruct (Sql.first get c rows) as [[i r]|] eqn:Hf; simpl.
  - apply first_Some in Hf as (Hl & Hh & _). split; [|reflexivity].
    intros _. exists r. split; [|exact Hh]. apply list_elem_of_lookup. eauto.
  - split; [discriminate|]. intros (r & Hin & Hh).
    rewrite (proj1 (first_None c rows) Hf r Hin) in Hh. discriminate.
Qed.
End SqlFacts.

(** ** The handlers in direct style *)

Section Equations.
Context `{collab : Collaborators}.

Lemma user_reg_eq salt commit_ok email username password gender captcha request_id w :
  user_reg salt commit_ok email username password gender captcha request_id w =
  match validate_email email with
  | None => (Raise INVALID_OPERATION, w)
  | Some n =>
    match parse_gender gender with
    | None => (Raise INVALID_OPERATION, w)
    | Some g =>
      if is_not_None (u_first (duplicate_clause n username) (users (db w)))
      then (Raise RESOURCE_CONFILCT, w)
      else match cache w !! request_id with
           | None => (Raise CAPTCHA_FAILED, w)
           | Some code =>
             if String.eqb code captcha
             then if commit_ok
                  then (Ok tt,
                        mkWorld (mkDb (users (db w) ++
                                       [new_user_row salt n username password
                                                     request_id g w])
                                      (addresses (db w)))
                                (delete request_id (cache w)))
                  else (Raise SQLAlchemyError,
                        mkWorld (db w) (delete request_id (cache w)))
             else (Raise CAPTCHA_FAILED, w)
           end
    end
  end.
Proof.
  unfold user_reg, new_user_row. unfold_monad.
  destruct (validate_email email) as [n|]; cbn; [|reflexivity].
  destruct (parse_gender gender) as [g|]; cbn; [|reflexivity].
  destruct (is_not_None _); cbn; [reflexivity|].
  destruct (cache w !! request_id) as [code|]; cbn; [|reflexivity].
  destruct (String.eqb code captcha); cbn; [|reflexivity].
  destruct commit_ok; cbn; [|reflexivity].
  destruct (users (db w)); reflexivity.
Qed.

Lemma user_recover_eq salt commit_ok email password captcha request_id w :
  user_recover salt commit_ok email password captcha request_id w =
  match u_first (Sql.Eq (ucol UserDb.c_email) (Sql.Lit email)) (users (db w)) with
  | None => (Raise NOT_FOUND, w)
  | Some (i, record) =>
    match cache w !! request_id with
    | None => (Raise CAPTCHA_FAILED, w)
    | Some code =>
      if String.eqb code captcha
      then if commit_ok
           then (Ok (UserDb.username record),
                 mkWorld (mkDb (<[i := UserDb.set_password (hashpw password salt) record]>
                                  (users (db w)))
                               (addresses (db w)))
                         (delete request_id (cache w)))
           else (Raise SQLAlchemyError,
                 mkWorld (db w) (delete request_id (cache w)))
      else (Raise CAPTCHA_FAILED, w)
    end
  end.
Proof.
  unfold user_recover. unfold_monad. cbn.
  destruct (u_first _ _) as [[i record]|]; cbn; [|reflexivity].
  destruct (cache w !! request_id) as [code|]; cbn; [|reflexivity].
  destruct (String.eqb code captcha); cbn; [|reflexivity].
  destruct commit_ok; reflexivity.
Qed.

Lemma user_login_eq username password w :
  user_login username password w =
  match u_first (Sql.Eq (ucol UserDb.c_username) (Sql.Lit username)) (users (db w)) with
  | None => (Raise AUTH_FAILED, w)
  | Some (_, user) =>
    if checkpw password (UserDb.password user)
    then (Ok (Token.mk (create_access_token
                          [("sub", UserDb.username user); ("id", UserDb.uid user)]
                          ACCESS_TOKEN_EXPIRE_MINUTES)
                       "bearer"), w)
    else (Raise AUTH_FAILED, w)
  end.
Proof.
  unfold user_login. unfold_monad. cbn.
  destruct (u_first _ _) as [[i user]|]; cbn; [|reflexivity].
  destruct (checkpw _ _); reflexivity.
Qed.

Lemma captcha_eq (purpose : Purpose) client request_id email w :
  (match purpose with
   | REGISTER => user_req_register_captcha
   | RECOVER_PASSWORD => user_req_recover_captcha
   end) client request_id email w =
  match validate_email email with
  | None => (Raise INVALID_OPERATION, w)
  | Some n =>
    (Ok request_id,
     mkWorld (db w)
             (<[request_id := send_captcha n purpose (client_ip client)]> (cache w)))
  end.
Proof.
  destruct purpose;
    unfold user_req_register_captcha, user_req_recover_captcha; unfold_monad;
    destruct (validate_email email); reflexivity.
Qed.

Lemma add_address_eq fresh_aid commit_ok body user w :
  add_address fresh_aid commit_ok body user w =
  if commit_ok
  then (Ok tt,
        mkWorld (mkDb (users (db w))
                      ((if AddressRequest.is_default body
                        then clear_defaults (User.uid user) (addresses (db w))
                        else addresses (db w))
                       ++ [AddressRequest.to_address fresh_aid body (User.uid user)]))
                (cache w))
  else (Raise SQLAlchemyError, w).
Proof. unfold add_address. unfold_monad. cbn. destruct commit_ok; reflexivity. Qed.

Lemma update_address_eq commit_ok aid body user w :
  update_address commit_ok aid body user w =
  if commit_ok
  then (Ok tt,
        mkWorld (mkDb (users (db w))
                      (a_update (owned_address_clause user aid)
                                (AddressRequest.model_dump_onto body)
                                (if AddressRequest.is_default body
                                 then clear_defaults (User.uid user) (addresses (db w))
                                 else addresses (db w))))
                (cache w))
  else (Raise SQLAlchemyError, w).
Proof. unfold update_address. unfold_monad. cbn. destruct commit_ok; reflexivity. Qed.

Lemma delete_address_eq commit_ok aid user w :
  delete_address commit_ok aid user w =
  match a_first (owned_address_clause user aid) (addresses (db w)) with
  | Some (i, _) =>
    if commit_ok
    then (Ok tt, mkWorld (mkDb (users (db w)) (delete i (addresses (db w)))) (cache w))
    else (Raise SQLAlchemyError, w)
  | None => (Raise NOT_FOUND, w)
  end.
Proof.
  unfold delete_address. unfold_monad. cbn.
  destruct (a_first _ _) as [[i r]|]; cbn; [|reflexivity].
  destruct commit_ok; reflexivity.
Qed.
Lemma user_update_eq salt commit_ok uid body user w :
  user_update salt commit_ok uid body user w =
  if negb (String.eqb uid (User.uid user)) && negb (verify_user user Permission.ADMIN)
  then (Raise AssertionError, w)
  else match u_first (Sql.Eq (ucol UserDb.c_uid) (Sql.Lit uid)) (users (db w)) with
       | None => (Raise NOT_FOUND, w)
       | Some (i, record) =>
         if changes_permission body record && negb (verify_user user Permission.ADMIN)
         then (Raise AssertionError, w)
         else if commit_ok
              then (Ok tt,
                    mkWorld (mkDb (<[i := patch_profile salt body record]> (users (db w)))
                                  (addresses (db w)))
                            (cache w))
              else (Raise SQLAlchemyError, w)
       end.
Proof.
  unfold user_update, patch_profile, changes_permission.
  generalize (verify_user user Permission.ADMIN) as admin. intros admin.
  unfold_monad.
  destruct (negb (uid =? User.uid user)), admin; simpl;
    try reflexivity;
    (destruct (u_first _ _) as [[i record]|]; simpl; [|reflexivity]);
    destruct record as [ruid remail rname rpw rperm rbirth rgender];
    (destruct (UpdateUser.permission body) as [p|]; simpl);
    destruct (UpdateUser.birthday body), (UpdateUser.gender body); simpl;
    try (destruct (Permission.eqb rperm p); simpl);
    destruct commit_ok; reflexivity.
Qed.
End Equations.

(** ** How a request changes the user table *)

Section UserTable.
Context `{collab : Collaborators}.

Lemma user_update_users salt commit_ok uid body user w :
  users_step (users (db w))
             (users (db (snd (user_update salt commit_ok uid body user w)))).
Proof.
  rewrite user_update_eq.
  destruct (_ && _); [constructor|].
  destruct (u_first _ _) as [[i record]|] eqn:Hf; [|constructor].
  apply first_Some in Hf as (Hl & _).
  destruct (_ && _); [constructor|].
  destruct commit_ok; [|constructor]. cbn.
  eapply us_replace; [exact Hl|]. unfold patch_profile.
  destruct (UpdateUser.password body), (UpdateUser.gender body),
    (UpdateUser.birthday body), (UpdateUser.permission body); cbn;
    try destruct (negb _); reflexivity.
Qed.

Lemma handle_users r w :
  users_step (users (db w)) (users (db (handle r w))).
Proof.
  destruct r; cbn [handle].
  - rewrite (captcha_eq REGISTER). destruct (validate_email email); constructor.
  - rewrite (captcha_eq RECOVER_PASSWORD). destruct (validate_email email); constructor.
  - rewrite user_reg_eq.
    destruct (validate_email email) as [n|] eqn:Hn; [|constructor].
    destruct (parse_gender gender); [|constructor].
    destruct (is_not_None _); [constructor|].
    destruct (cache w !! request_id) as [code|]; [|constructor].
    destruct (String.eqb code captcha); [|constructor].
    destruct commit_ok; cbn; [|constructor].
    eapply us_append. cbn. exact Hn.
  - rewrite user_login_eq.
    destruct (u_first _ _) as [[i u]|]; [|constructor].
    destruct (checkpw _ _); constructor.
  - rewrite user_recover_eq.
    destruct (u_first _ _) as [[i u]|] eqn:Hf; [|constructor].
    apply first_Some in Hf as (Hl & _).
    destruct (cache w !! request_id) as [code|]; [|constructor].
    destruct (String.eqb code captcha); [|constructor].
    destruct commit_ok; cbn; [|constructor].
    eapply us_replace; [exact Hl | reflexivity].
  - apply user_update_users.
  - constructor.
  - constructor.
  - rewrite add_address_eq. destruct commit_ok; constructor.
  - rewrite update_address_eq. destruct commit_ok; constructor.
  - rewrite delete_address_eq.
    destruct (a_first _ _) as [[i a]|]; [|constructor].
    destruct commit_ok; constructor.
Qed.

Lemma users_step_length us us' :
  users_step us us' -> (length us <= length us')%nat.
Proof.
  destruct 1; [lia | rewrite length_app; simpl; lia | rewrite length_insert; lia].
Qed.

(** Users are never deleted. *)
Lemma serve_users_length rs w :
  (length (users (db w)) <= length (users (db (serve rs w))))%nat.
Proof.
  unfold serve. revert w. induction rs as [|r rs IH]; intros w; simpl; [lia|].
  etrans; [|apply IH]. apply users_step_length, handle_users.
Qed.

Lemma users_step_normalized us us' :
  (forall e n, validate_email e = Some n -> validate_email n = Some n) ->
  users_step us us' ->
  Forall (fun u => validate_email (UserDb.email u) = Some (UserDb.email u)) us ->
  Forall (fun u => validate_email (UserDb.email u) = Some (UserDb.email u)) us'.
Proof.
  intros Hidem Hstep Hus. destruct Hstep as [|row e He|i r r' Hl He]; [assumption| |].
  - apply Forall_app. split; [assumption|]. constructor; [|constructor].
    eapply Hidem, He.
  - apply Forall_insert; [assumption|]. rewrite He.
    eapply Forall_lookup_1 in Hus; [|exact Hl]. exact Hus.
Qed.

Lemma reachable_emails_normalized w :
  (forall e n, validate_email e = Some n -> validate_email n = Some n) ->
  reachable w -> emails_normalized w.
Proof.
  intros Hidem. induction 1 as [|r w Hw IH]; [constructor|].
  unfold emails_normalized in *.
  eapply users_step_normalized; [exact Hidem | apply handle_users | exact IH].
Qed.
End UserTable.

(** ** Registration: the bootstrap rule *)

Section Registration.
Context `{collab : Collaborators}.

Lemma user_reg_Ok salt commit_ok email username password gender captcha request_id w w' :
  user_reg salt commit_ok email username password gender captcha request_id w
  = (Ok tt, w') ->
  exists n g,
    validate_email email = Some n /\ parse_gender gender = Some g /\
    is_not_None (u_first (duplicate_clause n username) (users (db w))) = false /\
    cache w !! request_id = Some captcha /\ commit_ok = true /\
    w' = mkWorld (mkDb (users (db w) ++
                        [new_user_row salt n username password request_id g w])
                       (addresses (db w)))
                 (delete request_id (cache w)).
Proof.
  rewrite user_reg_eq.
  destruct (validate_email email) as [n|]; [|discriminate].
  destruct (parse_gender gender) as [g|]; [|discriminate].
  destruct (is_not_None _) eqn:Hdup; [discriminate|].
  destruct (cache w !! request_id) as [code|]; [|discriminate].
  destruct (String.eqb code captcha) eqn:Hcode; [|discriminate].
  apply String.eqb_eq in Hcode as ->.
  destruct commit_ok; [|discriminate].
  intros [= <-]. exists n, g. auto 10.
Qed.

(** C6.  A successful registration appends exactly one user; that
    user's permission is ADMIN when the store held no user at the start
    of the request and USER otherwise.  Hence the first registration
    yields ADMIN, and whatever requests are served afterwards, every
    later successful registration yields USER. *)
Theorem user_reg_bootstrap_rule
    salt commit_ok email username password gender captcha request_id w w' :
  user_reg salt commit_ok email username password gender captcha request_id w
  = (Ok tt, w') ->
  (exists row,
      users (db w') = users (db w) ++ [row] /\
      (length (users (db w)) = 0%nat -> UserDb.permission row = Permission.ADMIN) /\
      (length (users (db w)) <> 0%nat -> UserDb.permission row = Permission.USER)) /\
  (forall rs salt2 commit_ok2 email2 username2 password2 gender2 captcha2
          request_id2 w2,
      user_reg salt2 commit_ok2 email2 username2 password2 gender2 captcha2
               request_id2 (serve rs w') = (Ok tt, w2) ->
      exists row2,
        users (db w2) = users (db (serve rs w')) ++ [row2] /\
        UserDb.permission row2 = Permission.USER).
Proof.
  intros Hreg. apply user_reg_Ok in Hreg as (n & g & _ & _ & _ & _ & _ & ->).
  split.
  - eexists. split; [reflexivity|]. cbn.
    destruct (users (db w)); cbn; split; congruence.
  - intros rs salt2 commit_ok2 email2 username2 password2 gender2 captcha2
           request_id2 w2 Hreg2.
    apply user_reg_Ok in Hreg2 as (n2 & g2 & _ & _ & _ & _ & _ & ->).
    eexists. split; [reflexivity|]. cbn.
    match goal with |- context [serve rs ?w0] =>
      pose proof (serve_users_length rs w0) as Hlen end.
    cbn in Hlen. rewrite length_app in Hlen. cbn in Hlen.
    destruct (users (db (serve rs _))); [cbn in Hlen; lia | reflexivity].
Qed.
End Registration.

(** ** Login *)

Section Login.
Context `{collab : Collaborators}.

(** C7.  Login leaves the world alone and has exactly two outcomes.
    It raises AUTH_FAILED exactly when no user has the given username or
    [checkpw] rejects the password against the hash of the user found;
    both cases raise the same exception and there is no other failure.
    Otherwise it returns a token of type bearer made by
    [create_access_token] from the payload sub = username, id = uid of
    the user found and the fixed expiry window. *)
Theorem user_login_outcome username password w :
  snd (user_login username password w) = w /\
  (fst (user_login username password w) = Raise AUTH_FAILED <->
     (forall u, u ∈ users (db w) -> UserDb.username u <> username) \/
     (exists u,
         List.find (fun u => String.eqb (UserDb.username u) username) (users (db w))
         = Some u /\
         checkpw password (UserDb.password u) = false)) /\
  (forall e, fst (user_login username password w) = Raise e -> e = AUTH_FAILED) /\
  (forall u,
      List.find (fun u => String.eqb (UserDb.username u) username) (users (db w))
      = Some u ->
      checkpw password (UserDb.password u) = true ->
      UserDb.username u = username /\
      fst (user_login username password w)
      = Ok (Token.mk (create_access_token
                        [("sub", UserDb.username u); ("id", UserDb.uid u)]
                        ACCESS_TOKEN_EXPIRE_MINUTES)
                     "bearer")).
Proof.
  rewrite user_login_eq.
  pose proof (first_find UserDb.get
                (Sql.Eq (ucol UserDb.c_username) (Sql.Lit username))
                (users (db w))) as Hfind.
  change (Sql.first UserDb.get) with u_first in Hfind.
  change (Sql.holds UserDb.get (Sql.Eq (ucol UserDb.c_username) (Sql.Lit username)))
    with (fun u => String.eqb (UserDb.username u) username) in Hfind.
  destruct (u_first _ _) as [[i user]|] eqn:Hf; cbn in Hfind; rewrite <- Hfind.
  - apply first_Some in Hf as (Hl & Hh & _). cbn in Hh.
    apply String.eqb_eq in Hh.
    destruct (checkpw password (UserDb.password user)) eqn:Hpw; cbn.
    + split; [reflexivity|]. split; [|split].
      * split; [discriminate|]. intros [Hno | (u & [= <-] & Hu)].
        -- exfalso. eapply Hno; [|exact Hh]. eapply list_elem_of_lookup_2, Hl.
        -- congruence.
      * discriminate.
      * intros u [= <-] _. auto.
    + split; [reflexivity|]. split; [|split].
      * split; [|reflexivity]. intros _. right. eauto.
      * congruence.
      * intros u [= <-]. congruence.
  - cbn. split; [reflexivity|]. split; [|split].
    + split; [|reflexivity]. intros _. left. intros u Hu Hname.
      pose proof (proj1 (first_None _ _ _) Hf u Hu) as Hh. cbn in Hh.
      apply String.eqb_neq in Hh. contradiction.
    + congruence.
    + discriminate.
Qed.
End Login.

(** ** Recovery *)

Section Recovery.
Context `{collab : Collaborators}.

Lemma user_recover_Ok salt commit_ok email password captcha request_id w name w' :
  user_recover salt commit_ok email password captcha request_id w = (Ok name, w') ->
  exists i u,
    u_first (Sql.Eq (ucol UserDb.c_email) (Sql.Lit email)) (users (db w)) = Some (i, u) /\
    cache w !! request_id = Some captcha /\ commit_ok = true /\
    name = UserDb.username u /\
    w' = mkWorld (mkDb (<[i := UserDb.set_password (hashpw password salt) u]>
                          (users (db w)))
                       (addresses (db w)))
                 (delete request_id (cache w)).
Proof.
  rewrite user_recover_eq.
  destruct (u_first _ _) as [[i u]|]; [|discriminate].
  destruct (cache w !! request_id) as [code|]; [|discriminate].
  destruct (String.eqb code captcha) eqn:Hcode; [|discriminate].
  apply String.eqb_eq in Hcode as ->.
  destruct commit_ok; [|discriminate].
  intros [= <- <-]. exists i, u. auto 10.
Qed.

Lemma user_recover_no_match salt commit_ok email password captcha request_id w :
  (forall u, u ∈ users (db w) -> UserDb.email u <> email) ->
  user_recover salt commit_ok email password captcha request_id w
  = (Raise NOT_FOUND, w).
Proof.
  intros Hno. rewrite user_recover_eq.
  destruct (u_first _ _) as [[i u]|] eqn:Hf; [|reflexivity].
  apply first_Some in Hf as (Hl & Hh & _). cbn in Hh.
  apply String.eqb_eq in Hh. exfalso.
  eapply Hno; [|exact Hh]. eapply list_elem_of_lookup_2, Hl.
Qed.

(** C8.  Recover fails with NOT_FOUND and leaves the world as it was
    when no user has the given email.  When it succeeds, the first user
    with that email is the only row that changes: its password becomes
    the hash of the new password and its other fields stay; every other
    user row and the address table are unchanged; the username of that
    user is returned. *)
Theorem user_recover_frame salt commit_ok email password captcha request_id w :
  ((forall u, u ∈ users (db w) -> UserDb.email u <> email) ->
   user_recover salt commit_ok email password captcha request_id w
   = (Raise NOT_FOUND, w)) /\
  (forall name w',
      user_recover salt commit_ok email password captcha request_id w
      = (Ok name, w') ->
      exists i u u',
        users (db w) !! i = Some u /\ UserDb.email u = email /\
        name = UserDb.username u /\
        users (db w') !! i = Some u' /\
        UserDb.password u' = hashpw password salt /\
        UserDb.uid u' = UserDb.uid u /\
        UserDb.email u' = UserDb.email u /\
        UserDb.username u' = UserDb.username u /\
        UserDb.permission u' = UserDb.permission u /\
        UserDb.birthday u' = UserDb.birthday u /\
        UserDb.gender u' = UserDb.gender u /\
        length (users (db w')) = length (users (db w)) /\
        (forall j, j <> i -> users (db w') !! j = users (db w) !! j) /\
        addresses (db w') = addresses (db w)).
Proof.
  split; [apply user_recover_no_match|].
  intros name w' Hrec.
  apply user_recover_Ok in Hrec as (i & u & Hf & _ & _ & -> & ->).
  apply first_Some in Hf as (Hl & Hh & _). cbn in Hh.
  apply String.eqb_eq in Hh.
  exists i, u, (UserDb.set_password (hashpw password salt) u). cbn.
  repeat split; auto.
  - apply list_lookup_insert_eq. eapply lookup_lt_Some, Hl.
  - apply length_insert.
  - intros j Hj. apply list_lookup_insert_ne. congruence.
Qed.
End Recovery.

(** ** Challenges *)

Section Challenges.
Context `{collab : Collaborators}.

Lemma no_entry_consumed request_id w :
  cache w !! request_id = None -> consumed request_id w.
Proof.
  intros Hnone. unfold consumed. split; intros.
  - rewrite user_reg_eq, Hnone.
    destruct (validate_email email); [|auto].
    destruct (parse_gender gender); [|auto].
    destruct (is_not_None _); auto.
  - rewrite user_recover_eq, Hnone.
    destruct (u_first _ _) as [[i u]|]; auto.
Qed.

Lemma mismatch_eqb (o : option string) (captcha : string) :
  o <> Some captcha ->
  match o with
  | None => true
  | Some code => negb (String.eqb code captcha)
  end = true.
Proof.
  destruct o as [code|]; [|reflexivity]. intros Hne.
  destruct (String.eqb code captcha) eqn:Hc; [|reflexivity].
  apply String.eqb_eq in Hc. congruence.
Qed.

(** C4.  When register or recover reaches the challenge check and the
    cache holds no code under the request identifier, or a code other
    than the submitted one, the handler raises CAPTCHA_FAILED and the
    world (cache entry, users, addresses) is unchanged.  When the code
    matches, the key is deleted from the cache whether or not the commit
    that follows is accepted; if the commit is refused the record store
    keeps its rows.  Either way every later register or recover request
    with that request identifier fails. *)
Theorem challenge_consumption request_id captcha w :
  (forall salt commit_ok email username password gender,
      reg_checks_pass email username gender w ->
      cache w !! request_id <> Some captcha ->
      user_reg salt commit_ok email username password gender captcha request_id w
      = (Raise CAPTCHA_FAILED, w)) /\
  (forall salt commit_ok email password,
      recover_checks_pass email w ->
      cache w !! request_id <> Some captcha ->
      user_recover salt commit_ok email password captcha request_id w
      = (Raise CAPTCHA_FAILED, w)) /\
  (forall salt commit_ok email username password gender,
      reg_checks_pass email username gender w ->
      cache w !! request_id = Some captcha ->
      let out := user_reg salt commit_ok email username password gender
                          captcha request_id w in
      cache (snd out) = delete request_id (cache w) /\
      (commit_ok = true -> fst out = Ok tt) /\
      (commit_ok = false -> fst out = Raise SQLAlchemyError /\ db (snd out) = db w) /\
      consumed request_id (snd out)) /\
  (forall salt commit_ok email password,
      recover_checks_pass email w ->
      cache w !! request_id = Some captcha ->
      let out := user_recover salt commit_ok email password captcha request_id w in
      cache (snd out) = delete request_id (cache w) /\
      (commit_ok = true -> is_ok (fst out) = true) /\
      (commit_ok = false -> fst out = Raise SQLAlchemyError /\ db (snd out) = db w) /\
      consumed request_id (snd out)).
Proof.
  split; [|split; [|split]].
  - intros salt commit_ok email username password gender (n & g & Hn & Hg & Hdup) Hne.
    rewrite user_reg_eq, Hn, Hg, Hdup.
    apply mismatch_eqb in Hne. destruct (cache w !! request_id) as [code|]; [|reflexivity].
    apply negb_true_iff in Hne. rewrite Hne. reflexivity.
  - intros salt commit_ok email password Hfound Hne.
    rewrite user_recover_eq. unfold recover_checks_pass in Hfound.
    destruct (u_first _ _) as [[i u]|]; [|discriminate].
    apply mismatch_eqb in Hne. destruct (cache w !! request_id) as [code|]; [|reflexivity].
    apply negb_true_iff in Hne. rewrite Hne. reflexivity.
  - intros salt commit_ok email username password gender (n & g & Hn & Hg & Hdup) Hc.
    cbn zeta. rewrite user_reg_eq, Hn, Hg, Hdup, Hc, String.eqb_refl.
    destruct commit_ok; cbn; (repeat split; try congruence);
      apply no_entry_consumed; cbn; apply lookup_delete_eq.
  - intros salt commit_ok email password Hfound Hc.
    cbn zeta. rewrite user_recover_eq. unfold recover_checks_pass in Hfound.
    destruct (u_first _ _) as [[i u]|]; [|discriminate].
    rewrite Hc, String.eqb_refl.
    destruct commit_ok; cbn; (repeat split; try congruence);
      apply no_entry_consumed; cbn; apply lookup_delete_eq.
Qed.

(** C9.  The cache entry written by either challenge endpoint maps the
    request identifier to the code alone, whatever the purpose.  A
    challenge issued by the recovery endpoint is consumed by register:
    with the issued code, and the other checks of register passing and its
    commit accepted, register stores the new user and deletes the key;
    with any other code it raises CAPTCHA_FAILED and changes nothing.
    Symmetrically, a challenge issued by the registration endpoint is
    consumed by recover, which stores the new password hash in the user
    found by the email and deletes the key, and raises CAPTCHA_FAILED on
    any other code.  After either consumption no later register or
    recover with that request identifier succeeds. *)
Theorem challenge_purpose_not_checked client request_id email_c n w :
  validate_email email_c = Some n ->
  (let issued := user_req_recover_captcha client request_id email_c w in
   let code := send_captcha n RECOVER_PASSWORD (client_ip client) in
   fst issued = Ok request_id /\
   db (snd issued) = db w /\
   cache (snd issued) = <[request_id := code]> (cache w) /\
   forall salt email username password gender n' g,
     validate_email email = Some n' ->
     parse_gender gender = Some g ->
     is_not_None (u_first (duplicate_clause n' username) (users (db w))) = false ->
     user_reg salt true email username password gender code request_id (snd issued)
     = (Ok tt,
        mkWorld (mkDb (users (db w) ++
                       [new_user_row salt n' username password request_id g w])
                      (addresses (db w)))
                (delete request_id (cache w))) /\
     (forall captcha, captcha <> code ->
        user_reg salt true email username password gender captcha request_id
                 (snd issued)
        = (Raise CAPTCHA_FAILED, snd issued)) /\
     consumed request_id
              (snd (user_reg salt true email username password gender code
                             request_id (snd issued)))) /\
  (let issued := user_req_register_captcha client request_id email_c w in
   let code := send_captcha n REGISTER (client_ip client) in
   fst issued = Ok request_id /\
   db (snd issued) = db w /\
   cache (snd issued) = <[request_id := code]> (cache w) /\
   forall salt email password i u,
     u_first (Sql.Eq (ucol UserDb.c_email) (Sql.Lit email)) (users (db w))
     = Some (i, u) ->
     user_recover salt true email password code request_id (snd issued)
     = (Ok (UserDb.username u),
        mkWorld (mkDb (<[i := UserDb.set_password (hashpw password salt) u]>
                         (users (db w)))
                      (addresses (db w)))
                (delete request_id (cache w))) /\
     (forall captcha, captcha <> code ->
        user_recover salt true email password captcha request_id (snd issued)
        = (Raise CAPTCHA_FAILED, snd issued)) /\
     consumed request_id
              (snd (user_recover salt true email password code request_id
                                 (snd issued)))).
Proof.
  intros Hn. split; cbn zeta.
  - rewrite (captcha_eq RECOVER_PASSWORD), Hn. cbn [fst snd db cache].
    do 3 (split; [reflexivity|]).
    intros salt email username password gender n' g Hn' Hg Hdup.
    assert (forall captcha,
              user_reg salt true email username password gender captcha request_id
                {| db := db w;
                   cache := <[request_id := send_captcha n RECOVER_PASSWORD
                                                         (client_ip client)]> (cache w) |}
              = if String.eqb (send_captcha n RECOVER_PASSWORD (client_ip client))
                              captcha
                then (Ok tt,
                      mkWorld (mkDb (users (db w) ++
                                     [new_user_row salt n' username password
                                                   request_id g w])
                                    (addresses (db w)))
                              (delete request_id (cache w)))
                else (Raise CAPTCHA_FAILED,
                      {| db := db w;
                         cache := <[request_id := send_captcha n RECOVER_PASSWORD
                                                               (client_ip client)]>
                                    (cache w) |})) as Hrun.
    { intros captcha. rewrite user_reg_eq, Hn', Hg. cbn [db cache]. rewrite Hdup.
      rewrite lookup_insert_eq.
      destruct (String.eqb _ captcha); [|reflexivity].
      rewrite delete_insert_eq. reflexivity. }
    split; [|split].
    + rewrite Hrun, String.eqb_refl. reflexivity.
    + intros captcha Hne. rewrite Hrun.
      destruct (String.eqb _ captcha) eqn:Hc; [|reflexivity].
      apply String.eqb_eq in Hc. congruence.
    + rewrite Hrun, String.eqb_refl. apply no_entry_consumed.
      cbn. apply lookup_delete_eq.
  - rewrite (captcha_eq REGISTER), Hn. cbn [fst snd db cache].
    do 3 (split; [reflexivity|]).
    intros salt email password i u Hfound.
    assert (forall captcha,
              user_recover salt true email password captcha request_id
                {| db := db w;
                   cache := <[request_id := send_captcha n REGISTER
                                                         (client_ip client)]> (cache w) |}
              = if String.eqb (send_captcha n REGISTER (client_ip client)) captcha
                then (Ok (UserDb.username u),
                      mkWorld (mkDb (<[i := UserDb.set_password (hashpw password salt) u]>
                                       (users (db w)))
                                    (addresses (db w)))
                              (delete request_id (cache w)))
                else (Raise CAPTCHA_FAILED,
                      {| db := db w;
                         cache := <[request_id := send_captcha n REGISTER
                                                               (client_ip client)]>
                                    (cache w) |})) as Hrun.
    { intros captcha. rewrite user_recover_eq. cbn [db cache]. rewrite Hfound.
      rewrite lookup_insert_eq.
      destruct (String.eqb _ captcha); [|reflexivity].
      rewrite delete_insert_eq. reflexivity. }
    split; [|split].
    + rewrite Hrun, String.eqb_refl. reflexivity.
    + intros captcha Hne. rewrite Hrun.
      destruct (String.eqb _ captcha) eqn:Hc; [|reflexivity].
      apply String.eqb_eq in Hc. congruence.
    + rewrite Hrun, String.eqb_refl. apply no_entry_consumed.
      cbn. apply lookup_delete_eq.
Qed.
End Challenges.

(** ** Recovery and email normal forms *)

Section RawEmail.
Context `{collab : Collaborators}.

Lemma reachable_serve rs w : reachable w -> reachable (serve rs w).
Proof.
  unfold serve. revert w. induction rs as [|r rs IH]; intros w Hw; cbn; [exact Hw|].
  apply IH. by constructor.
Qed.

(** C10.  Recover never raises INVALID_OPERATION: it queries with the
    submitted email string as it is.  Register stores the normal form.
    So, normalisation being idempotent, once a registration with an
    email that differs from its normal form has succeeded, the user
    exists under the normal form, and recover with the submitted string
    raises NOT_FOUND and changes nothing, then and after any further
    requests. *)
Theorem user_recover_raw_email
    (idempotent : forall e n, validate_email e = Some n -> validate_email n = Some n)
    w salt commit_ok email username password gender captcha request_id w' n :
  reachable w ->
  user_reg salt commit_ok email username password gender captcha request_id w
  = (Ok tt, w') ->
  validate_email email = Some n ->
  n <> email ->
  (exists u, u ∈ users (db w') /\ UserDb.email u = n /\ UserDb.username u = username) /\
  (forall rs salt2 commit_ok2 password2 captcha2 request_id2,
      user_recover salt2 commit_ok2 email password2 captcha2 request_id2
                   (serve rs w')
      = (Raise NOT_FOUND, serve rs w')) /\
  (forall salt2 commit_ok2 email2 password2 captcha2 request_id2 w2,
      fst (user_recover salt2 commit_ok2 email2 password2 captcha2 request_id2 w2)
      <> Raise INVALID_OPERATION).
Proof.
  intros Hreach Hreg Hn Hne.
  assert (reachable w') as Hreach'.
  { replace w' with
      (handle (Register salt commit_ok email username password gender captcha
                        request_id) w) by (cbn; rewrite Hreg; reflexivity).
    by constructor. }
  apply user_reg_Ok in Hreg as (n0 & g & Hn0 & _ & _ & _ & _ & ->).
  rewrite Hn in Hn0. injection Hn0 as <-.
  split; [|split].
  - eexists. split; [|split].
    + cbn. apply elem_of_app. right. apply list_elem_of_here.
    + reflexivity.
    + reflexivity.
  - intros. apply user_recover_no_match. intros u Hu Hemail.
    pose proof (reachable_emails_normalized _ idempotent
                  (reachable_serve rs _ Hreach')) as Hnorm.
    unfold emails_normalized in Hnorm.
    rewrite Forall_forall in Hnorm. specialize (Hnorm u Hu).
    rewrite Hemail, Hn in Hnorm. congruence.
  - intros. rewrite user_recover_eq.
    destruct (u_first _ _) as [[i u]|]; [|discriminate].
    destruct (cache w2 !! request_id2) as [code|]; [|discriminate].
    destruct (String.eqb code captcha2); [|discriminate].
    destruct commit_ok2; discriminate.
Qed.
End RawEmail.

(** ** Profile update: the authorization gate *)

Section ProfileUpdate.
Context `{collab : Collaborators}.

Lemma verify_user_non_admin user :
  User.permission user <> Permission.ADMIN ->
  verify_user user Permission.ADMIN = false.
Proof. unfold verify_user. destruct (User.permission user); cbn; congruence. Qed.

(** A caller below ADMIN who targets another user is stopped by the
    first [assert], whatever the patch and whether or not the target
    exists; nothing is written. *)
Lemma user_update_other_user salt commit_ok uid body user w :
  User.permission user <> Permission.ADMIN ->
  uid <> User.uid user ->
  user_update salt commit_ok uid body user w = (Raise AssertionError, w).
Proof.
  intros Hperm Hne. rewrite user_update_eq, (verify_user_non_admin _ Hperm).
  apply String.eqb_neq in Hne. rewrite Hne. reflexivity.
Qed.

(** A caller below ADMIN whose patch carries a role other than the
    stored one is stopped by the second [assert]. *)
Lemma user_update_role_change salt commit_ok uid body user w i record p :
  User.permission user <> Permission.ADMIN ->
  uid = User.uid user ->
  u_first (Sql.Eq (ucol UserDb.c_uid) (Sql.Lit uid)) (users (db w)) = Some (i, record) ->
  UpdateUser.permission body = Some p ->
  UserDb.permission record <> p ->
  user_update salt commit_ok uid body user w = (Raise AssertionError, w).
Proof.
  intros Hperm -> Hf Hp Hne.
  rewrite user_update_eq, (verify_user_non_admin _ Hperm), Hf, String.eqb_refl.
  unfold changes_permission. rewrite Hp. cbn.
  destruct (UserDb.permission record), p; cbn; congruence.
Qed.

(** No exception the handlers can raise surfaces as AuthorizationFailed. *)
Lemma kind_of_never_authorization e : kind_of e <> Some AuthorizationFailed.
Proof. destruct e; discriminate. Qed.
End ProfileUpdate.

(** C1.  Evaluation at the failing inputs: Bob, whose permission is USER,
    (a) updates Alice's profile with an empty patch and (b) asks for the
    role ADMIN on his own profile.  Both requests are stopped, the world
    is unchanged, but the exception is the [AssertionError] of the
    [assert] statement, which is not the AuthorizationFailed kind. *)
Theorem user_update_denial_is_assertion_error :
  user_update "s" true "a11ce" Demo.empty_patch Demo.bob Demo.two_users
  = (Raise AssertionError, Demo.two_users) /\
  user_update "s" true "b0b" Demo.promote_patch Demo.bob Demo.two_users
  = (Raise AssertionError, Demo.two_users) /\
  kind_of AssertionError <> Some AuthorizationFailed.
Proof.
  split; [|split].
  - apply user_update_other_user; discriminate.
  - eapply user_update_role_change with (p := Permission.ADMIN);
      [discriminate | reflexivity | vm_compute; reflexivity | reflexivity | discriminate].
  - discriminate.
Qed.

(** ** Registration: the duplicate check *)

Section DuplicateCheck.
Context `{collab : Collaborators}.

(** The criterion handed to [filter] is the username comparison alone. *)
Lemma duplicate_clause_eq n username :
  duplicate_clause n username
  = Sql.Eq (ucol UserDb.c_username) (Sql.Lit username).
Proof. reflexivity. Qed.

Lemma duplicate_check_username n username (us : list UserDb.t) :
  is_not_None (u_first (duplicate_clause n username) us) = true <->
  exists u, u ∈ us /\ UserDb.username u = username.
Proof.
  rewrite duplicate_clause_eq. unfold u_first. rewrite first_is_Some.
  split; intros (u & Hu & Hh); exists u; (split; [exact Hu|]).
  - cbn in Hh. by apply String.eqb_eq.
  - cbn. by apply String.eqb_eq.
Qed.

(** The half of the conflict rule the handler implements: a taken
    username is rejected, whatever the email. *)
Lemma user_reg_username_taken
    salt commit_ok email username password gender captcha request_id w n g :
  validate_email email = Some n -> parse_gender gender = Some g ->
  (exists u, u ∈ users (db w) /\ UserDb.username u = username) ->
  user_reg salt commit_ok email username password gender captcha request_id w
  = (Raise RESOURCE_CONFILCT, w).
Proof.
  intros Hn Hg Hdup. rewrite user_reg_eq, Hn, Hg.
  apply (duplicate_check_username n) in Hdup. rewrite Hdup. reflexivity.
Qed.
End DuplicateCheck.

(** C2.  Evaluation at the failing input: Alice is registered under
    alice@example.com; a registration with that email and the new
    username carol, carrying a valid challenge, is accepted and a second
    user with the same email is stored.  Should the store refuse the
    commit, the request fails with the store's exception: in neither case
    is RESOURCE_CONFILCT raised. *)
Theorem user_reg_accepts_taken_email :
  let out := user_reg "s" true "alice@example.com" "carol" "pw" "1" "271828" "r1"
                      Demo.two_users in
  validate_email "alice@example.com" = Some (UserDb.email Demo.alice_row) /\
  Demo.alice_row ∈ users (db Demo.two_users) /\
  fst out = Ok tt /\
  List.map UserDb.email (users (db (snd out)))
  = ["alice@example.com"; "bob@example.com"; "alice@example.com"] /\
  List.map UserDb.username (users (db (snd out))) = ["alice"; "bob"; "carol"] /\
  (forall commit_ok,
      fst (user_reg "s" commit_ok "alice@example.com" "carol" "pw" "1" "271828" "r1"
                    Demo.two_users) <> Raise RESOURCE_CONFILCT).
Proof.
  cbn zeta. split; [reflexivity|]. split; [apply list_elem_of_here|].
  split; [|split; [|split]]; try (vm_compute; reflexivity).
  intros [|]; vm_compute; discriminate.
Qed.

(** ** Address book *)

Section AddressBook.
Context `{collab : Collaborators}.

(** The criterion handed to [filter] is the owner comparison alone. *)
Lemma owned_address_clause_eq user aid :
  owned_address_clause user aid
  = Sql.Eq (acol AddressDb.c_uid) (Sql.Lit (User.uid user)).
Proof. reflexivity. Qed.

Lemma count_default_app uid (xs ys : list AddressDb.t) :
  count_default uid (xs ++ ys) = (count_default uid xs + count_default uid ys)%nat.
Proof. unfold count_default. rewrite List.filter_app, length_app. reflexivity. Qed.

Lemma count_default_clear_same uid rows :
  count_default uid (clear_defaults uid rows) = 0%nat.
Proof.
  unfold count_default, clear_defaults, a_update, Sql.update.
  set (f := fun r : AddressDb.t => if Sql.holds _ _ r then _ else r).
  set (p := fun a : AddressDb.t => (_ =? uid)%string && _).
  induction rows as [|a rows IH]; [reflexivity|]. cbn [List.map List.filter].
  assert (p (f a) = false) as ->; [|exact IH].
  unfold p, f. cbn. destruct (String.eqb (AddressDb.uid a) uid) eqn:Ha; cbn.
  - apply andb_false_r.
  - rewrite Ha. reflexivity.
Qed.

Lemma count_default_clear_other uid owner rows :
  uid <> owner ->
  count_default uid (clear_defaults owner rows) = count_default uid rows.
Proof.
  intros Hne. unfold count_default, clear_defaults, a_update, Sql.update.
  set (f := fun r : AddressDb.t => if Sql.holds _ _ r then _ else r).
  set (p := fun a : AddressDb.t => (_ =? uid)%string && _).
  induction rows as [|a rows IH]; [reflexivity|]. cbn [List.map List.filter].
  assert (p (f a) = p a) as ->.
  { unfold p, f. cbn. destruct (String.eqb (AddressDb.uid a) owner) eqn:Ha; cbn;
      [|reflexivity].
    apply String.eqb_eq in Ha.
    assert (String.eqb (AddressDb.uid a) uid = false) as ->
        by (apply String.eqb_neq; congruence).
    reflexivity. }
  destruct (p a); cbn [length]; rewrite IH; reflexivity.
Qed.

(** [add_address] keeps the single-default invariant. *)
Lemma add_address_single_default fresh_aid commit_ok body user w :
  single_default w ->
  single_default (snd (add_address fresh_aid commit_ok body user w)).
Proof.
  intros Hinv uid. rewrite add_address_eq.
  destruct commit_ok; cbn [snd db addresses]; [|apply Hinv].
  rewrite count_default_app. specialize (Hinv uid).
  unfold AddressRequest.to_address.
  destruct (AddressRequest.is_default body) eqn:Hd.
  - destruct (decide (uid = User.uid user)) as [->|Hne].
    + rewrite count_default_clear_same. unfold count_default. cbn.
      destruct (_ && _); cbn; lia.
    + rewrite count_default_clear_other by exact Hne.
      unfold count_default at 2. cbn.
      assert (String.eqb (User.uid user) uid = false) as ->
          by (apply String.eqb_neq; congruence).
      cbn. lia.
  - unfold count_default at 2. cbn. rewrite andb_false_r. cbn. lia.
Qed.

(** [update_address] never raises NOT_FOUND. *)
Lemma update_address_never_not_found commit_ok aid body user w :
  fst (update_address commit_ok aid body user w) <> Raise NOT_FOUND.
Proof. rewrite update_address_eq. destruct commit_ok; discriminate. Qed.

(** [delete_address] raises NOT_FOUND exactly when the caller owns no
    address at all. *)
Lemma delete_address_not_found commit_ok aid user w :
  fst (delete_address commit_ok aid user w) = Raise NOT_FOUND <->
  forall a, a ∈ addresses (db w) -> AddressDb.uid a <> User.uid user.
Proof.
  rewrite delete_address_eq, owned_address_clause_eq.
  destruct (a_first _ _) as [[i a]|] eqn:Hf.
  - apply first_Some in Hf as (Hl & Hh & _). cbn in Hh. apply String.eqb_eq in Hh.
    split; [destruct commit_ok; discriminate|].
    intros Hno. exfalso. eapply Hno; [|exact Hh]. eapply list_elem_of_lookup_2, Hl.
  - split; [|reflexivity]. intros _ a Ha Hu.
    pose proof (proj1 (first_None _ _ _) Hf a Ha) as Hh. cbn in Hh.
    apply String.eqb_neq in Hh. contradiction.
Qed.

(** What [delete_address] removes is an address of the caller, the
    first one in storage order; the other rows stay as they are. *)
Lemma delete_address_own commit_ok aid user w w' :
  delete_address commit_ok aid user w = (Ok tt, w') ->
  exists i a,
    addresses (db w) !! i = Some a /\ AddressDb.uid a = User.uid user /\
    (forall j a', (j < i)%nat -> addresses (db w) !! j = Some a' ->
                  AddressDb.uid a' <> User.uid user) /\
    addresses (db w') = delete i (addresses (db w)) /\
    users (db w') = users (db w).
Proof.
  rewrite delete_address_eq, owned_address_clause_eq.
  destruct (a_first _ _) as [[i a]|] eqn:Hf; [|discriminate].
  destruct commit_ok; [|discriminate]. intros [= <-].
  apply first_Some in Hf as (Hl & Hh & Hlt). cbn in Hh. apply String.eqb_eq in Hh.
  exists i, a. repeat split; auto.
  intros j a' Hj Ha'. specialize (Hlt j a' Hj Ha'). cbn in Hlt.
  by apply String.eqb_neq.
Qed.

(** [update_address] leaves the rows of other users as they are. *)
Lemma update_address_others commit_ok aid body user w j a :
  addresses (db w) !! j = Some a ->
  AddressDb.uid a <> User.uid user ->
  addresses (db (snd (update_address commit_ok aid body user w))) !! j = Some a.
Proof.
  intros Hl Hne. rewrite update_address_eq, owned_address_clause_eq.
  destruct commit_ok; cbn; [|exact Hl].
  apply String.eqb_neq in Hne.
  unfold clear_defaults, a_update, Sql.update.
  destruct (AddressRequest.is_default body);
    repeat (rewrite list_lookup_fmap, ?Hl; cbn; rewrite ?Hne);
    rewrite ?Hl; cbn; rewrite ?Hne; reflexivity.
Qed.
End AddressBook.

(** C3.  Evaluation at the failing input: Bob holds two addresses and
    none is the default, so the invariant holds.  He updates the first of
    them with a body marked default.  Afterwards both of his addresses are
    flagged as default: the invariant is broken. *)
Theorem update_address_breaks_single_default :
  let w := Demo.two_addresses in
  let w' := snd (update_address true "ad1" Demo.default_address Demo.bob w) in
  single_default w /\
  fst (update_address true "ad1" Demo.default_address Demo.bob w) = Ok tt /\
  List.map (fun a => (AddressDb.aid a, AddressDb.is_default a)) (addresses (db w'))
  = [("ad1", true); ("ad2", true)] /\
  count_default "b0b" (addresses (db w')) = 2%nat /\
  ~ single_default w'.
Proof.
  cbn zeta. split; [|split; [|split; [|split]]].
  - intros uid. unfold count_default, Demo.two_addresses, Demo.addr.
    cbn [db addresses List.filter AddressDb.uid AddressDb.is_default].
    rewrite !andb_false_r. cbn. lia.
  - vm_compute. reflexivity.
  - vm_compute. reflexivity.
  - vm_compute. reflexivity.
  - intros Hinv. specialize (Hinv "b0b"). vm_compute in Hinv. lia.
Qed.

(** C5.  Evaluation at the failing inputs: Alice owns address ad0 and Bob
    owns ad1.  (a) Bob deletes ad0, which he does not own: the request
    succeeds and removes his own address ad1.  (b) Bob updates an aid that
    no address has: the request succeeds and rewrites his address ad1.
    In neither case is NOT_FOUND raised. *)
Theorem address_ownership_not_checked :
  let w := Demo.one_each in
  owns_address "b0b" "ad0" (addresses (db w)) = false /\
  fst (delete_address true "ad0" Demo.bob w) = Ok tt /\
  List.map AddressDb.aid (addresses (db (snd (delete_address true "ad0" Demo.bob w))))
  = ["ad0"] /\
  owns_address "b0b" "zzz" (addresses (db w)) = false /\
  fst (update_address true "zzz" Demo.default_address Demo.bob w) = Ok tt /\
  List.map (fun a => (AddressDb.aid a, AddressDb.address a))
           (addresses (db (snd (update_address true "zzz" Demo.default_address
                                               Demo.bob w))))
  = [("ad0", "1 Main St"); ("ad1", "2 Side St")].
Proof. cbn zeta. repeat split; vm_compute; reflexivity. Qed.

(** ** The theorems at concrete requests *)

Lemma demo_validate_email_idempotent e n :
  Demo.validate_email e = Some n -> Demo.validate_email n = Some n.
Proof.
  unfold Demo.validate_email.
  destruct (String.eqb e "Bob@EXAMPLE.com") eqn:He.
  - intros [= <-]. reflexivity.
  - destruct (Demo.has_at e) eqn:Hat; [|discriminate].
    intros [= <-]. rewrite He, Hat. reflexivity.
Qed.

(** The first registration in a store without users yields an ADMIN. *)
Lemma user_reg_bootstrap_rule_witness :
  let out := user_reg "s" true "alice@example.com" "alice" "pw" "0" "271828" "r1"
                      Demo.fresh in
  out = (Ok tt, snd out) /\
  exists row, users (db (snd out)) = [row] /\
              UserDb.permission row = Permission.ADMIN.
Proof.
  cbn zeta.
  assert (user_reg "s" true "alice@example.com" "alice" "pw" "0" "271828" "r1"
                   Demo.fresh
          = (Ok tt, snd (user_reg "s" true "alice@example.com" "alice" "pw" "0"
                                  "271828" "r1" Demo.fresh))) as Hreg
      by (vm_compute; reflexivity).
  split; [exact Hreg|].
  destruct (user_reg_bootstrap_rule _ _ _ _ _ _ _ _ _ _ Hreg)
    as [(row & Hrow & Hadmin & _) _].
  exists row. split; [exact Hrow | apply Hadmin; reflexivity].
Defined.

(** Bob logs in with his password and gets a bearer token. *)
Lemma user_login_outcome_witness :
  fst (user_login "bob" "pw-b" Demo.two_users)
  = Ok (Token.mk (create_access_token [("sub", "bob"); ("id", "b0b")]
                                      ACCESS_TOKEN_EXPIRE_MINUTES)
                 "bearer").
Proof.
  destruct (user_login_outcome "bob" "pw-b" Demo.two_users) as (_ & _ & _ & Hok).
  destruct (Hok Demo.bob_row) as [_ Htoken];
    [vm_compute; reflexivity | vm_compute; reflexivity | exact Htoken].
Defined.

(** Bob recovers his password: his row alone changes. *)
Lemma user_recover_frame_witness :
  let out := user_recover "s9" true "bob@example.com" "new" "271828" "r1"
                          Demo.two_users in
  fst out = Ok "bob" /\
  users (db (snd out)) !! 0%nat = Some Demo.alice_row /\
  addresses (db (snd out)) = [].
Proof.
  cbn zeta.
  assert (user_recover "s9" true "bob@example.com" "new" "271828" "r1" Demo.two_users
          = (Ok "bob", snd (user_recover "s9" true "bob@example.com" "new" "271828"
                                         "r1" Demo.two_users))) as Hrec
      by (vm_compute; reflexivity).
  destruct (user_recover_frame "s9" true "bob@example.com" "new" "271828" "r1"
                               Demo.two_users) as [_ Hframe].
  destruct (Hframe _ _ Hrec) as (i & u & u' & Hl & Hemail & _ & _ & _ & _ & _ & _
                                 & _ & _ & _ & _ & Hothers & Haddr).
  split; [rewrite Hrec; reflexivity|]. split; [|exact Haddr].
  rewrite Hothers; [reflexivity|].
  intros <-. vm_compute in Hl. injection Hl as <-. discriminate.
Defined.

(** A wrong code is refused and a right one is consumed, for register
    with a refused commit and for recover. *)
Lemma challenge_consumption_witness :
  user_reg "s" true "carol@example.com" "carol" "pw" "1" "000000" "r1" Demo.two_users
  = (Raise CAPTCHA_FAILED, Demo.two_users) /\
  user_recover "s" true "bob@example.com" "new" "000000" "r1" Demo.two_users
  = (Raise CAPTCHA_FAILED, Demo.two_users) /\
  consumed "r1" (snd (user_reg "s" false "carol@example.com" "carol" "pw" "1"
                               "271828" "r1" Demo.two_users)) /\
  consumed "r1" (snd (user_recover "s" true "bob@example.com" "new" "271828" "r1"
                                   Demo.two_users)).
Proof.
  assert (reg_checks_pass "carol@example.com" "carol" "1" Demo.two_users) as Hreg
      by (exists "carol@example.com", 1%Z; repeat split; vm_compute; reflexivity).
  assert (recover_checks_pass "bob@example.com" Demo.two_users) as Hrec
      by (vm_compute; reflexivity).
  destruct (challenge_consumption "r1" "000000" Demo.two_users)
    as (Hreg_fail & Hrec_fail & _).
  destruct (challenge_consumption "r1" "271828" Demo.two_users)
    as (_ & _ & Hreg_match & Hrec_match).
  split; [|split; [|split]].
  - apply Hreg_fail; [exact Hreg|]. vm_compute. discriminate.
  - apply Hrec_fail; [exact Hrec|]. vm_compute. discriminate.
  - destruct (Hreg_match "s" false "carol@example.com" "carol" "pw" "1" Hreg)
      as (_ & _ & _ & Hconsumed); [vm_compute; reflexivity | exact Hconsumed].
  - destruct (Hrec_match "s" true "bob@example.com" "new" Hrec)
      as (_ & _ & _ & Hconsumed); [vm_compute; reflexivity | exact Hconsumed].
Defined.

(** A recovery challenge opens a registration, which stores Carol and
    uses the challenge up; a registration challenge opens a recovery,
    which gives Bob the new hash. *)
Lemma challenge_purpose_not_checked_witness :
  let w1 := snd (user_req_recover_captcha None "r9" "bob@example.com" Demo.two_users) in
  let w2 := snd (user_req_register_captcha None "r9" "bob@example.com"
                                           Demo.two_users) in
  let reg := user_reg "s" true "carol@example.com" "carol" "pw" "1"
                      (send_captcha "bob@example.com" RECOVER_PASSWORD (client_ip None))
                      "r9" w1 in
  let rec := user_recover "s" true "bob@example.com" "new"
                          (send_captcha "bob@example.com" REGISTER (client_ip None))
                          "r9" w2 in
  fst reg = Ok tt /\
  List.map UserDb.username (users (db (snd reg))) = ["alice"; "bob"; "carol"] /\
  cache (snd reg) !! "r9" = None /\
  fst rec = Ok "bob" /\
  List.map UserDb.password (users (db (snd rec))) = ["pw-a$s1"; "new$s"] /\
  cache (snd rec) !! "r9" = None.
Proof.
  cbn zeta.
  assert (validate_email "bob@example.com" = Some "bob@example.com") as Hn
      by reflexivity.
  destruct (challenge_purpose_not_checked None "r9" "bob@example.com"
                                          "bob@example.com" Demo.two_users Hn)
    as [(_ & _ & _ & Hreg) (_ & _ & _ & Hrec)].
  destruct (Hreg "s" "carol@example.com" "carol" "pw" "1" "carol@example.com" 1%Z)
    as (Hreg_out & _); [reflexivity | reflexivity | vm_compute; reflexivity |].
  destruct (Hrec "s" "bob@example.com" "new" 1%nat Demo.bob_row)
    as (Hrec_out & _); [vm_compute; reflexivity |].
  cbn zeta in Hreg_out, Hrec_out. rewrite Hreg_out, Hrec_out.
  repeat split; vm_compute; reflexivity.
Defined.

(** Bob registers as Bob@EXAMPLE.com and cannot recover under that string. *)
Lemma user_recover_raw_email_witness :
  let w := handle (CaptchaRegister None "r1" "Bob@EXAMPLE.com") empty_world in
  let w' := snd (user_reg "s" true "Bob@EXAMPLE.com" "bob" "pw" "1" "271828" "r1" w) in
  user_recover "s2" true "Bob@EXAMPLE.com" "pw2" "271828" "r2" w'
  = (Raise NOT_FOUND, w').
Proof.
  cbn zeta.
  assert (reachable (handle (CaptchaRegister None "r1" "Bob@EXAMPLE.com") empty_world))
    as Hreach by (constructor; constructor).
  assert (user_reg "s" true "Bob@EXAMPLE.com" "bob" "pw" "1" "271828" "r1"
                   (handle (CaptchaRegister None "r1" "Bob@EXAMPLE.com") empty_world)
          = (Ok tt,
             snd (user_reg "s" true "Bob@EXAMPLE.com" "bob" "pw" "1" "271828" "r1"
                           (handle (CaptchaRegister None "r1" "Bob@EXAMPLE.com")
                                   empty_world)))) as Hreg
      by (vm_compute; reflexivity).
  assert (validate_email "Bob@EXAMPLE.com" = Some "Bob@example.com") as Hn
      by reflexivity.
  assert ("Bob@example.com" <> "Bob@EXAMPLE.com") as Hne by discriminate.
  destruct (user_recover_raw_email (collab := Demo.env)
                                   demo_validate_email_idempotent _ _ _ _ _ _ _ _ _ _ _
                                   Hreach Hreg Hn Hne) as (_ & Hnot_found & _).
  exact (Hnot_found [] "s2" true "pw2" "271828" "r2").
Defined.

(** * Further properties of the handlers *)

(** ** The user table over time *)

Section UserIdentity.
Context `{collab : Collaborators}.

Lemma patch_profile_identity salt body record :
  identity (patch_profile salt body record) = identity record.
Proof.
  unfold patch_profile, identity.
  destruct (UpdateUser.password body), (UpdateUser.gender body),
    (UpdateUser.birthday body), (UpdateUser.permission body); cbn;
    try destruct (negb _); reflexivity.
Qed.

(** One request keeps the user table, or appends a row whose username no
    stored row has, or replaces a row by one with the same identity. *)
Lemma handle_users_shape r w :
  users (db (handle r w)) = users (db w) \/
  (exists row, users (db (handle r w)) = users (db w) ++ [row] /\
               forall u, u ∈ users (db w) -> UserDb.username u <> UserDb.username row) \/
  (exists i u u', users (db w) !! i = Some u /\
                  users (db (handle r w)) = <[i := u']> (users (db w)) /\
                  identity u' = identity u).
Proof.
  destruct r; cbn [handle].
  - rewrite (captcha_eq REGISTER). destruct (validate_email email); auto.
  - rewrite (captcha_eq RECOVER_PASSWORD). destruct (validate_email email); auto.
  - rewrite user_reg_eq.
    destruct (validate_email email) as [n|]; [|auto].
    destruct (parse_gender gender) as [g|]; [|auto].
    destruct (is_not_None _) eqn:Hdup; [auto|].
    destruct (cache w !! request_id) as [code|]; [|auto].
    destruct (String.eqb code captcha); [|auto].
    destruct commit_ok; [|auto]. right. left. eexists. split; [reflexivity|].
    intros u Hu Hname. cbn in Hname.
    assert (is_not_None (u_first (duplicate_clause n username) (users (db w))) = true)
      as Htaken by (apply duplicate_check_username; eauto).
    congruence.
  - rewrite user_login_eq.
    destruct (u_first _ _) as [[i u]|]; [|auto]. destruct (checkpw _ _); auto.
  - rewrite user_recover_eq.
    destruct (u_first _ _) as [[i u]|] eqn:Hf; [|auto].
    apply first_Some in Hf as (Hl & _).
    destruct (cache w !! request_id) as [code|]; [|auto].
    destruct (String.eqb code captcha); [|auto].
    destruct commit_ok; [|auto]. right. right.
    exists i, u, (UserDb.set_password (hashpw password salt) u). auto.
  - rewrite user_update_eq.
    destruct (_ && _); [auto|].
    destruct (u_first _ _) as [[i record]|] eqn:Hf; [|auto].
    apply first_Some in Hf as (Hl & _).
    destruct (_ && _); [auto|].
    destruct commit_ok; [|auto]. right. right.
    exists i, record, (patch_profile salt body record).
    split; [exact Hl|]. split; [reflexivity | apply patch_profile_identity].
  - auto.
  - auto.
  - rewrite add_address_eq. destruct commit_ok; auto.
  - rewrite update_address_eq. destruct commit_ok; auto.
  - rewrite delete_address_eq.
    destruct (a_first _ _) as [[i a]|]; [|auto]. destruct commit_ok; auto.
Qed.

Lemma insert_same_image {A B} (f : A -> B) (l : list A) i x y :
  l !! i = Some x -> f y = f x -> f <$> <[i := y]> l = f <$> l.
Proof.
  intros Hl Hf. rewrite list_fmap_insert, Hf.
  apply list_insert_id. rewrite list_lookup_fmap, Hl. reflexivity.
Qed.

Lemma handle_identity_prefix r w :
  (identity <$> users (db w)) `prefix_of` (identity <$> users (db (handle r w))).
Proof.
  destruct (handle_users_shape r w)
    as [-> | [(row & -> & _) | (i & u & u' & Hl & -> & Hid)]].
  - reflexivity.
  - rewrite fmap_app. apply prefix_app_r. reflexivity.
  - rewrite (insert_same_image identity _ _ _ _ Hl Hid). reflexivity.
Qed.

Lemma serve_identity_prefix_of rs w :
  (identity <$> users (db w)) `prefix_of` (identity <$> users (db (serve rs w))).
Proof.
  unfold serve. revert w. induction rs as [|r rs IH]; intros w; cbn; [reflexivity|].
  etrans; [apply handle_identity_prefix | apply IH].
Qed.

Lemma handle_usernames_unique r w :
  NoDup (UserDb.username <$> users (db w)) ->
  NoDup (UserDb.username <$> users (db (handle r w))).
Proof.
  intros Hnd.
  destruct (handle_users_shape r w)
    as [-> | [(row & -> & Hfresh) | (i & u & u' & Hl & -> & Hid)]].
  - exact Hnd.
  - rewrite fmap_app. apply NoDup_app. split; [exact Hnd|]. split.
    + intros name Hin Hrow. cbn in Hrow. apply list_elem_of_singleton in Hrow as ->.
      apply list_elem_of_fmap in Hin as (u & Hname & Hu).
      eapply Hfresh; [exact Hu | congruence].
    + cbn. apply NoDup_singleton.
  - rewrite (insert_same_image UserDb.username _ _ _ _ Hl); [exact Hnd|].
    unfold identity in Hid. congruence.
Qed.

Lemma reachable_usernames_nodup w :
  reachable w -> NoDup (UserDb.username <$> users (db w)).
Proof.
  induction 1 as [|r w Hw IH]; [constructor|]. by apply handle_usernames_unique.
Qed.

(** X1.  Users are never deleted and their uid, email and username are
    never reassigned: a user stored at some position is, after any
    sequence of requests, still stored at that position with the same
    uid, email and username. *)
Theorem serve_keeps_identity rs w i u :
  users (db w) !! i = Some u ->
  exists u', users (db (serve rs w)) !! i = Some u' /\
             UserDb.uid u' = UserDb.uid u /\
             UserDb.email u' = UserDb.email u /\
             UserDb.username u' = UserDb.username u.
Proof.
  intros Hl. destruct (serve_identity_prefix_of rs w) as [more Hmore].
  assert ((identity <$> users (db (serve rs w))) !! i = Some (identity u)) as Hi.
  { rewrite Hmore. apply lookup_app_l_Some. rewrite list_lookup_fmap, Hl. reflexivity. }
  rewrite list_lookup_fmap in Hi.
  destruct (users (db (serve rs w)) !! i) as [u'|]; [|discriminate].
  exists u'. split; [reflexivity|]. cbn in Hi. unfold identity in Hi.
  injection Hi as -> -> ->. auto.
Qed.

(** X2.  Usernames are unique: in every world reachable from the empty
    one through the handlers, two stored users with the same username are
    the same row. *)
Theorem reachable_usernames_unique w i j u v :
  reachable w ->
  users (db w) !! i = Some u ->
  users (db w) !! j = Some v ->
  UserDb.username u = UserDb.username v ->
  i = j.
Proof.
  intros Hreach Hu Hv Hname.
  eapply NoDup_lookup; [exact (reachable_usernames_nodup w Hreach) | |].
  - rewrite list_lookup_fmap, Hu. reflexivity.
  - rewrite list_lookup_fmap, Hv, Hname. reflexivity.
Qed.
End UserIdentity.

(** ** Registration, continued *)

Section RegistrationMore.
Context `{collab : Collaborators}.

(** X3.  A successful registration stores, behind the existing rows, a
    user whose uid is the request identifier, whose email is the normal
    form of the submitted address, whose password is the hash of the
    submitted one and whose birthday is unset; the address table is left
    alone and the challenge is gone from the cache. *)
Theorem user_reg_inserted_row
    salt commit_ok email username password gender captcha request_id w w' :
  user_reg salt commit_ok email username password gender captcha request_id w
  = (Ok tt, w') ->
  exists row,
    users (db w') = users (db w) ++ [row] /\
    UserDb.uid row = request_id /\
    validate_email email = Some (UserDb.email row) /\
    UserDb.username row = username /\
    UserDb.password row = hashpw password salt /\
    UserDb.birthday row = None /\
    parse_gender gender = Some (UserDb.gender row) /\
    addresses (db w') = addresses (db w) /\
    cache w' = delete request_id (cache w).
Proof.
  intros Hreg. apply user_reg_Ok in Hreg as (n & g & Hn & Hg & _ & _ & _ & ->).
  eexists. split; [reflexivity|]. cbn. auto 10.
Qed.

(** X4.  With an address that validates and a gender that parses,
    register raises RESOURCE_CONFILCT exactly when a stored user has the
    submitted username, whatever challenge the request carries; the
    challenge is then not consumed and nothing is written. *)
Theorem user_reg_conflict_iff
    salt commit_ok email username password gender captcha request_id w n g :
  validate_email email = Some n ->
  parse_gender gender = Some g ->
  (fst (user_reg salt commit_ok email username password gender captcha request_id w)
   = Raise RESOURCE_CONFILCT <->
   exists u, u ∈ users (db w) /\ UserDb.username u = username) /\
  (fst (user_reg salt commit_ok email username password gender captcha request_id w)
   = Raise RESOURCE_CONFILCT ->
   snd (user_reg salt commit_ok email username password gender captcha request_id w)
   = w).
Proof.
  intros Hn Hg. rewrite <- (duplicate_check_username n).
  rewrite user_reg_eq, Hn, Hg.
  destruct (is_not_None _); [cbn; split; [split|]; reflexivity|].
  destruct (cache w !! request_id) as [code|];
    [destruct (String.eqb code captcha); [destruct commit_ok|]|];
    cbn; (split; [split|]); discriminate.
Qed.



(** X6.  A username stays taken: once a registration has succeeded,
    whatever requests are served afterwards, a registration with the same
    username (and an address and gender that pass validation) raises
    RESOURCE_CONFILCT and changes nothing. *)
Theorem user_reg_username_stays_taken
    salt commit_ok email username password gender captcha request_id w w' :
  user_reg salt commit_ok email username password gender captcha request_id w
  = (Ok tt, w') ->
  forall rs salt2 commit_ok2 email2 password2 gender2 captcha2 request_id2 n2 g2,
    validate_email email2 = Some n2 ->
    parse_gender gender2 = Some g2 ->
    user_reg salt2 commit_ok2 email2 username password2 gender2 captcha2 request_id2
             (serve rs w')
    = (Raise RESOURCE_CONFILCT, serve rs w').
Proof.
  intros Hreg rs salt2 commit_ok2 email2 password2 gender2 captcha2 request_id2
         n2 g2 Hn2 Hg2.
  apply user_reg_Ok in Hreg as (n & g & _ & _ & _ & _ & _ & ->).
  eapply user_reg_username_taken; [exact Hn2 | exact Hg2 |].
  match goal with |- context [serve rs ?w0] =>
    pose proof (serve_identity_prefix_of rs w0) as [more Hmore] end.
  cbn [db users] in Hmore. rewrite fmap_app in Hmore. cbn in Hmore.
  set (row := new_user_row salt n username password request_id g w) in *.
  assert (identity row ∈ identity <$> users (db (serve rs
            {| db := {| users := users (db w) ++ [row];
                        addresses := addresses (db w) |};
               cache := delete request_id (cache w) |}))) as Hin.
  { rewrite Hmore. apply elem_of_app. left. apply elem_of_app. right.
    apply list_elem_of_here. }
  apply list_elem_of_fmap in Hin as (u & Hid & Hu).
  exists u. split; [exact Hu|]. unfold identity in Hid. injection Hid as _ _ <-.
  reflexivity.
Qed.
End RegistrationMore.

(** ** Profile update, continued *)

Section ProfileMore.
Context `{collab : Collaborators}.

(** X7.  A caller below ADMIN cannot change any role: whatever profile
    update such a caller sends, to whatever target, the permission column
    of the user table is afterwards what it was. *)
Theorem user_update_roles_need_admin salt commit_ok uid body user w :
  User.permission user <> Permission.ADMIN ->
  UserDb.permission <$> users (db (snd (user_update salt commit_ok uid body user w)))
  = UserDb.permission <$> users (db w).
Proof.
  intros Hperm. rewrite user_update_eq, (verify_user_non_admin _ Hperm).
  destruct (negb (uid =? User.uid user)%string); [reflexivity|]. cbn [andb].
  destruct (u_first _ _) as [[i record]|] eqn:Hf; [|reflexivity].
  apply first_Some in Hf as (Hl & _).
  rewrite andb_true_r.
  destruct (changes_permission body record) eqn:Hch; [reflexivity|].
  destruct commit_ok; [|reflexivity]. cbn [snd db users].
  apply (insert_same_image UserDb.permission _ _ _ _ Hl).
  unfold changes_permission in Hch. unfold patch_profile.
  destruct (UpdateUser.password body), (UpdateUser.gender body),
    (UpdateUser.birthday body), (UpdateUser.permission body) as [p|]; cbn in *;
    rewrite ?Hch; reflexivity.
Qed.

(** X8.  What an accepted profile update writes.  When the caller is an
    ADMIN, or updates their own profile without asking for another role,
    and the target exists and the commit is accepted, the update succeeds;
    in the target row each of birthday, gender, permission and password
    takes the value of the patch where the patch has one (the password as
    its hash) and keeps its value where it has none; uid, email and
    username stay; no other user row, no address and no cache entry
    changes. *)
Theorem user_update_applies_patch salt uid body user w i record :
  u_first (Sql.Eq (ucol UserDb.c_uid) (Sql.Lit uid)) (users (db w)) = Some (i, record) ->
  User.permission user = Permission.ADMIN \/
  (uid = User.uid user /\ changes_permission body record = false) ->
  exists record',
    user_update salt true uid body user w
    = (Ok tt, mkWorld (mkDb (<[i := record']> (users (db w))) (addresses (db w)))
                      (cache w)) /\
    UserDb.birthday record'
    = match UpdateUser.birthday body with
      | Some b => Some b
      | None => UserDb.birthday record
      end /\
    UserDb.gender record' = default (UserDb.gender record) (UpdateUser.gender body) /\
    UserDb.permission record'
    = default (UserDb.permission record) (UpdateUser.permission body) /\
    UserDb.password record'
    = match UpdateUser.password body with
      | Some pw => hashpw pw salt
      | None => UserDb.password record
      end /\
    identity record' = identity record.
Proof.
  intros Hf Hauth. exists (patch_profile salt body record).
  split; [|split; [|split; [|split; [|split]]]].
  - rewrite user_update_eq, Hf.
    destruct Hauth as [Hadmin | [-> Hch]].
    + unfold verify_user. rewrite Hadmin. cbn. rewrite !andb_false_r. reflexivity.
    + rewrite String.eqb_refl, Hch. reflexivity.
  - unfold patch_profile.
    destruct (UpdateUser.password body), (UpdateUser.gender body),
      (UpdateUser.birthday body), (UpdateUser.permission body); cbn;
      try destruct (negb _); reflexivity.
  - unfold patch_profile.
    destruct (UpdateUser.password body), (UpdateUser.gender body),
      (UpdateUser.birthday body), (UpdateUser.permission body); cbn;
      try destruct (negb _); reflexivity.
  - unfold patch_profile. destruct record as [ruid remail rname rpw rperm rbirth rgen].
    destruct (UpdateUser.password body), (UpdateUser.gender body),
      (UpdateUser.birthday body), (UpdateUser.permission body) as [p|]; cbn;
      try reflexivity;
      destruct rperm, p; reflexivity.
  - unfold patch_profile.
    destruct (UpdateUser.password body), (UpdateUser.gender body),
      (UpdateUser.birthday body), (UpdateUser.permission body); cbn;
      try destruct (negb _); reflexivity.
  - apply patch_profile_identity.
Qed.

(** X9.  For an ADMIN caller a profile update raises NOT_FOUND exactly
    when no stored user has the target uid, and then changes nothing. *)
Theorem user_update_not_found_iff salt commit_ok uid body user w :
  User.permission user = Permission.ADMIN ->
  (fst (user_update salt commit_ok uid body user w) = Raise NOT_FOUND <->
   forall u, u ∈ users (db w) -> UserDb.uid u <> uid) /\
  (fst (user_update salt commit_ok uid body user w) = Raise NOT_FOUND ->
   snd (user_update salt commit_ok uid body user w) = w).
Proof.
  intros Hadmin. rewrite user_update_eq. unfold verify_user. rewrite Hadmin. cbn.
  rewrite !andb_false_r.
  destruct (u_first _ _) as [[i record]|] eqn:Hf.
  - apply first_Some in Hf as (Hl & Hh & _). cbn in Hh. apply String.eqb_eq in Hh.
    rewrite andb_false_r.
    split; [|destruct commit_ok; cbn; discriminate].
    split; [destruct commit_ok; cbn; discriminate|].
    intros Hno. exfalso. eapply Hno; [|exact Hh]. eapply list_elem_of_lookup_2, Hl.
  - split; [|reflexivity]. split; [|reflexivity]. intros _ u Hu Huid.
    pose proof (proj1 (first_None _ _ _) Hf u Hu) as Hh. cbn in Hh.
    apply String.eqb_neq in Hh. contradiction.
Qed.

(** X10.  A profile update whose patch sets no field never changes the
    world, whoever sends it and whether it succeeds or fails. *)
Theorem user_update_empty_patch salt commit_ok uid user w :
  snd (user_update salt commit_ok uid (UpdateUser.mk None None None None) user w) = w.
Proof.
  rewrite user_update_eq.
  destruct (_ && _); [reflexivity|].
  destruct (u_first _ _) as [[i record]|] eqn:Hf; [|reflexivity].
  apply first_Some in Hf as (Hl & _).
  destruct (_ && _); [reflexivity|].
  destruct commit_ok; [|reflexivity]. cbn.
  rewrite list_insert_id by exact Hl. destruct w as [[us ads] c]. reflexivity.
Qed.
End ProfileMore.

(** ** Address book, continued *)

Section AddressBookMore.
Context `{collab : Collaborators}.

Lemma get_address_eq user w :
  get_address user w = (Ok (owned_rows (User.uid user) (addresses (db w))), w).
Proof. reflexivity. Qed.

Lemma owned_rows_app uid (xs ys : list AddressDb.t) :
  owned_rows uid (xs ++ ys) = owned_rows uid xs ++ owned_rows uid ys.
Proof. apply List.filter_app. Qed.

(** An update of the rows of [owner] that keeps the owner column maps the
    rows of [owner] and keeps the rows of everybody else. *)
Lemma owned_rows_update_same owner (f : AddressDb.t -> AddressDb.t) rows :
  (forall a, AddressDb.uid (f a) = AddressDb.uid a) ->
  owned_rows owner
             (a_update (Sql.Eq (acol AddressDb.c_uid) (Sql.Lit owner)) f rows)
  = List.map f (owned_rows owner rows).
Proof.
  intros Hf. unfold owned_rows, a_update, Sql.update.
  induction rows as [|a rows IH]; [reflexivity|]. cbn [List.map List.filter].
  change (Sql.holds AddressDb.get (Sql.Eq (acol AddressDb.c_uid) (Sql.Lit owner)) a)
    with (String.eqb (AddressDb.uid a) owner).
  destruct (String.eqb (AddressDb.uid a) owner) eqn:Ha.
  - rewrite Hf, Ha. cbn [List.map]. f_equal. exact IH.
  - rewrite Ha. exact IH.
Qed.

Lemma owned_rows_update_other uid owner (f : AddressDb.t -> AddressDb.t) rows :
  uid <> owner ->
  (forall a, AddressDb.uid (f a) = AddressDb.uid a) ->
  owned_rows uid
             (a_update (Sql.Eq (acol AddressDb.c_uid) (Sql.Lit owner)) f rows)
  = owned_rows uid rows.
Proof.
  intros Hne Hf. unfold owned_rows, a_update, Sql.update.
  induction rows as [|a rows IH]; [reflexivity|]. cbn [List.map List.filter].
  change (Sql.holds AddressDb.get (Sql.Eq (acol AddressDb.c_uid) (Sql.Lit owner)) a)
    with (String.eqb (AddressDb.uid a) owner).
  destruct (String.eqb (AddressDb.uid a) owner) eqn:Ha.
  - apply String.eqb_eq in Ha. rewrite Hf.
    assert (String.eqb (AddressDb.uid a) uid = false) as ->
        by (apply String.eqb_neq; congruence).
    exact IH.
  - destruct (String.eqb (AddressDb.uid a) uid); [f_equal|]; exact IH.
Qed.

(** X11.  Add then list.  With an accepted commit, adding an address
    succeeds, and the caller's listing afterwards is the listing before
    (with every default flag cleared if the new address is marked default)
    followed by the new address, which carries the fields of the body;
    the listing of every other user, the user table and the cache are
    unchanged. *)
Theorem add_address_then_list fresh_aid body user w :
  let w' := snd (add_address fresh_aid true body user w) in
  fst (add_address fresh_aid true body user w) = Ok tt /\
  fst (get_address user w')
  = Ok ((if AddressRequest.is_default body
         then List.map (AddressDb.set_is_default false)
                       (owned_rows (User.uid user) (addresses (db w)))
         else owned_rows (User.uid user) (addresses (db w)))
        ++ [AddressDb.mk (User.uid user) fresh_aid
                         (AddressRequest.is_default body) (AddressRequest.address body)
                         (AddressRequest.phone body) (AddressRequest.name body)]) /\
  (forall other, User.uid other <> User.uid user ->
                 fst (get_address other w') = fst (get_address other w)) /\
  users (db w') = users (db w) /\
  cache w' = cache w.
Proof.
  cbn zeta. rewrite add_address_eq. cbn [fst snd]. rewrite !get_address_eq.
  cbn [fst db addresses users cache].
  split; [reflexivity|]. split; [|split; [|split; reflexivity]].
  - rewrite owned_rows_app. f_equal. f_equal.
    + destruct (AddressRequest.is_default body); [|reflexivity].
      apply owned_rows_update_same. reflexivity.
    + unfold owned_rows, AddressRequest.to_address. cbn.
      rewrite String.eqb_refl. reflexivity.
  - intros other Hne. rewrite !get_address_eq. cbn [fst db addresses]. f_equal.
    rewrite owned_rows_app.
    assert (owned_rows (User.uid other)
              [AddressRequest.to_address fresh_aid body (User.uid user)] = []) as ->.
    { unfold owned_rows. cbn.
      assert (String.eqb (User.uid user) (User.uid other) = false) as ->
          by (apply String.eqb_neq; congruence).
      reflexivity. }
    rewrite app_nil_r.
    destruct (AddressRequest.is_default body); [|reflexivity].
    apply owned_rows_update_other; [exact Hne | reflexivity].
Qed.

(** X12.  Adding an address marked default makes it the caller's one
    and only default, whatever the flags were before, and leaves the
    number of defaults of every other user as it was. *)
Theorem add_default_address_is_only_default fresh_aid body user w :
  AddressRequest.is_default body = true ->
  let w' := snd (add_address fresh_aid true body user w) in
  List.filter AddressDb.is_default (owned_rows (User.uid user) (addresses (db w')))
  = [AddressRequest.to_address fresh_aid body (User.uid user)] /\
  count_default (User.uid user) (addresses (db w')) = 1%nat /\
  (forall uid, uid <> User.uid user ->
               count_default uid (addresses (db w'))
               = count_default uid (addresses (db w))).
Proof.
  intros Hd. cbn zeta. rewrite add_address_eq. cbn [snd db addresses]. rewrite Hd.
  split; [|split].
  - rewrite owned_rows_app. unfold clear_defaults.
    rewrite (owned_rows_update_same _ (AddressDb.set_is_default false))
      by reflexivity.
    rewrite List.filter_app.
    assert (forall l, List.filter AddressDb.is_default
                        (List.map (AddressDb.set_is_default false) l) = []) as ->
        by (induction l; [reflexivity | assumption]).
    unfold owned_rows, AddressRequest.to_address. cbn.
    rewrite String.eqb_refl. cbn. rewrite Hd. reflexivity.
  - rewrite count_default_app, count_default_clear_same.
    unfold count_default, AddressRequest.to_address. cbn.
    rewrite String.eqb_refl, Hd. reflexivity.
  - intros uid Hne. rewrite count_default_app, count_default_clear_other by exact Hne.
    unfold count_default at 2. unfold AddressRequest.to_address. cbn.
    assert (String.eqb (User.uid user) uid = false) as ->
        by (apply String.eqb_neq; congruence).
    cbn. lia.
Qed.
End AddressBookMore.

Section AddressBookRemove.
Context `{collab : Collaborators}.

Lemma filter_delete_le {A} (p : A -> bool) (l : list A) i :
  (length (List.filter p (delete i l)) <= length (List.filter p l))%nat.
Proof.
  revert i. induction l as [|x l IH]; intros [|i].
  - reflexivity.
  - reflexivity.
  - change (delete 0%nat (x :: l)) with l. cbn [List.filter].
    destruct (p x); cbn [length]; lia.
  - change (delete (S i) (x :: l)) with (x :: delete i l). cbn [List.filter].
    specialize (IH i). destruct (p x); cbn [length]; lia.
Qed.

(** Deleting the first row that satisfies [p] drops the head of the
    filtered list; deleting it leaves any filter it fails as it was. *)
Lemma filter_delete_first {A} (p q : A -> bool) (l : list A) i x :
  l !! i = Some x -> p x = true ->
  (forall j y, (j < i)%nat -> l !! j = Some y -> p y = false) ->
  List.filter p (delete i l) = tail (List.filter p l) /\
  (q x = false -> List.filter q (delete i l) = List.filter q l).
Proof.
  revert i. induction l as [|y l IH]; intros [|i] Hl Hx Hlt; try discriminate.
  - cbn in Hl. injection Hl as ->.
    change (delete 0%nat (x :: l)) with l. cbn [List.filter]. rewrite Hx.
    split; [reflexivity|]. intros ->. reflexivity.
  - cbn in Hl. destruct (IH i Hl Hx) as [IHp IHq].
    { intros j z Hj. apply (Hlt (S j)). lia. }
    assert (p y = false) as Hy by (apply (Hlt 0%nat); [lia | reflexivity]).
    change (delete (S i) (y :: l)) with (y :: delete i l). cbn [List.filter].
    rewrite Hy. split; [exact IHp|].
    intros Hq. rewrite (IHq Hq). reflexivity.
Qed.

(** X13.  What a successful delete removes.  Exactly one row goes: the
    first address of the caller in storage order, whatever aid the
    request names.  The listings of all other users, the user table and
    the cache are unchanged, and no user has more default addresses than
    before, so the single-default invariant survives. *)
Theorem delete_address_effect commit_ok aid user w w' :
  delete_address commit_ok aid user w = (Ok tt, w') ->
  S (length (addresses (db w'))) = length (addresses (db w)) /\
  owned_rows (User.uid user) (addresses (db w'))
  = tail (owned_rows (User.uid user) (addresses (db w))) /\
  (forall uid, uid <> User.uid user ->
               owned_rows uid (addresses (db w')) = owned_rows uid (addresses (db w))) /\
  (forall uid, (count_default uid (addresses (db w'))
                <= count_default uid (addresses (db w)))%nat) /\
  (single_default w -> single_default w') /\
  users (db w') = users (db w) /\
  cache w' = cache w.
Proof.
  rewrite delete_address_eq, owned_address_clause_eq.
  destruct (a_first _ _) as [[i a]|] eqn:Hf; [|discriminate].
  destruct commit_ok; [|discriminate]. intros [= <-]. cbn [db addresses users cache].
  apply first_Some in Hf as (Hl & Hh & Hlt).
  change (Sql.holds AddressDb.get
            (Sql.Eq (acol AddressDb.c_uid) (Sql.Lit (User.uid user))))
    with (fun a => String.eqb (AddressDb.uid a) (User.uid user)) in Hh, Hlt.
  cbn beta in Hh.
  assert (forall uid, (count_default uid (delete i (addresses (db w)))
                       <= count_default uid (addresses (db w)))%nat) as Hle
      by (intros uid; apply filter_delete_le).
  split; [|split; [|split; [|split; [|split; [|split]]]]]; try reflexivity.
  - rewrite length_delete by eauto.
    apply lookup_lt_Some in Hl. lia.
  - apply (filter_delete_first _ (fun _ => true) _ _ _ Hl Hh Hlt).
  - intros uid Hne.
    apply (filter_delete_first _ (fun a => String.eqb (AddressDb.uid a) uid)
                               _ _ _ Hl Hh Hlt).
    apply String.eqb_eq in Hh. apply String.eqb_neq. congruence.
  - exact Hle.
  - intros Hinv uid. etrans; [apply Hle | apply Hinv].
Qed.

(** X14.  What an accepted update writes.  The request succeeds whatever
    aid it names; every address of the caller gets the four fields of the
    body (default flag, address, phone, name) and keeps its aid; the
    listings of all other users, the number, owner and aid of the stored
    rows, the user table and the cache are unchanged. *)
Theorem update_address_effect aid body user w :
  let w' := snd (update_address true aid body user w) in
  fst (update_address true aid body user w) = Ok tt /\
  owned_rows (User.uid user) (addresses (db w'))
  = List.map (fun a => AddressDb.mk (AddressDb.uid a) (AddressDb.aid a)
                                    (AddressRequest.is_default body)
                                    (AddressRequest.address body)
                                    (AddressRequest.phone body)
                                    (AddressRequest.name body))
             (owned_rows (User.uid user) (addresses (db w))) /\
  (forall uid, uid <> User.uid user ->
               owned_rows uid (addresses (db w')) = owned_rows uid (addresses (db w))) /\
  List.map (fun a => (AddressDb.uid a, AddressDb.aid a)) (addresses (db w'))
  = List.map (fun a => (AddressDb.uid a, AddressDb.aid a)) (addresses (db w)) /\
  users (db w') = users (db w) /\
  cache w' = cache w.
Proof.
  cbn zeta. rewrite update_address_eq, owned_address_clause_eq.
  cbn [fst snd db addresses users cache].
  split; [reflexivity|]. split; [|split; [|split; [|split; reflexivity]]].
  - rewrite owned_rows_update_same by reflexivity.
    unfold AddressRequest.model_dump_onto.
    destruct (AddressRequest.is_default body); [|reflexivity].
    unfold clear_defaults.
    rewrite (owned_rows_update_same _ (AddressDb.set_is_default false)) by reflexivity.
    rewrite List.map_map. reflexivity.
  - intros uid Hne. rewrite owned_rows_update_other by (auto; reflexivity).
    destruct (AddressRequest.is_default body); [|reflexivity].
    apply owned_rows_update_other; [exact Hne | reflexivity].
  - unfold clear_defaults, a_update, Sql.update, AddressRequest.model_dump_onto.
    destruct (AddressRequest.is_default body); rewrite ?List.map_map;
      apply List.map_ext; intros a; cbn;
      repeat (destruct (String.eqb _ _); cbn); reflexivity.
Qed.
End AddressBookRemove.

(** ** All requests *)

(** Case analysis on the innermost scrutinee of the goal. *)
Ltac case_innermost :=
  repeat (match goal with
          | |- context [match ?x with _ => _ end] =>
            lazymatch x with
            | context [match _ with _ => _ end] => fail
            | _ => destruct x
            end
          end; cbn [fst snd]).

Section AllRequests.
Context `{collab : Collaborators}.

(** X15.  Which tables a request can write.  Only register, recover and
    profile update write the user table; only the three address mutations
    write the address table; only the two challenge endpoints, register
    and recover write the cache.  Every other request leaves the table
    exactly as it was. *)
Theorem handle_frame r w :
  (writes_users r = false -> users (db (handle r w)) = users (db w)) /\
  (writes_addresses r = false -> addresses (db (handle r w)) = addresses (db w)) /\
  (writes_cache r = false -> cache (handle r w) = cache w).
Proof.
  destruct r; cbn [handle writes_users writes_addresses writes_cache];
    (split; [|split]); try discriminate; intros _.
  all: rewrite ?(captcha_eq REGISTER), ?(captcha_eq RECOVER_PASSWORD), ?user_reg_eq,
         ?user_login_eq, ?user_recover_eq, ?user_update_eq, ?add_address_eq,
         ?update_address_eq, ?delete_address_eq.
  all: repeat match goal with
              | |- context [match ?x with _ => _ end] => destruct x
              end; reflexivity.
Qed.

(** X16.  No request other than the two challenge endpoints adds or
    changes a cache entry: every entry found in the cache afterwards was
    there before with the same code. *)
Theorem handle_cache_shrinks r w k v :
  issues_challenge r = false ->
  cache (handle r w) !! k = Some v -> cache w !! k = Some v.
Proof.
  intros Hr. destruct r; try discriminate Hr; cbn [handle].
  all: rewrite ?user_reg_eq, ?user_login_eq, ?user_recover_eq, ?user_update_eq,
         ?add_address_eq, ?update_address_eq, ?delete_address_eq.
  all: repeat match goal with
              | |- context [match ?x with _ => _ end] => destruct x
              end; cbn [snd cache]; try (intros Hk; exact Hk).
  all: intros Hk; apply lookup_delete_Some in Hk as [_ Hk]; exact Hk.
Qed.

(** X17.  The failures of each handler.  Serving a request either
    succeeds or raises one of the exceptions listed for it: the challenge
    endpoints only INVALID_OPERATION; register INVALID_OPERATION,
    RESOURCE_CONFILCT, CAPTCHA_FAILED or the store's exception; login only
    AUTH_FAILED; recover NOT_FOUND, CAPTCHA_FAILED or the store's
    exception; profile update AssertionError, NOT_FOUND or the store's
    exception; add and update address only the store's exception; delete
    address NOT_FOUND or the store's exception; profile and address
    listing nothing. *)
Theorem outcome_may_raise r w e :
  outcome r w = Some e -> e ∈ may_raise r.
Proof.
  destruct r; cbn [outcome may_raise]; unfold failure.
  all: rewrite ?(captcha_eq REGISTER), ?(captcha_eq RECOVER_PASSWORD), ?user_reg_eq,
         ?user_login_eq, ?user_recover_eq, ?user_update_eq, ?add_address_eq,
         ?update_address_eq, ?delete_address_eq.
  all: try (cbn; discriminate).
  all: case_innermost; try discriminate; intros [= <-].
  all: repeat (first [apply list_elem_of_here | apply list_elem_of_further]).
Qed.

(** X18.  A failed request leaves no partial write.  When serving a
    request raises, the record store holds the rows it held before; and
    unless the exception is the store's own (a refused commit after the
    challenge was consumed), the cache is unchanged too. *)
Theorem failed_request_keeps_store r w e :
  outcome r w = Some e ->
  db (handle r w) = db w /\
  (e <> SQLAlchemyError -> handle r w = w).
Proof.
  destruct r; cbn [outcome handle]; unfold failure.
  all: rewrite ?(captcha_eq REGISTER), ?(captcha_eq RECOVER_PASSWORD), ?user_reg_eq,
         ?user_login_eq, ?user_recover_eq, ?user_update_eq, ?add_address_eq,
         ?update_address_eq, ?delete_address_eq.
  all: try (cbn; discriminate).
  all: case_innermost; try discriminate; intros [= <-];
         (split; [reflexivity | try reflexivity; congruence]).
Qed.
End AllRequests.

(** ** Challenges and recovery, continued *)

Section RecoveryMore.
Context `{collab : Collaborators}.

(** X19.  Issuing a challenge.  Either endpoint raises
    INVALID_OPERATION exactly when the address does not validate, and then
    changes nothing.  Otherwise it answers with the request identifier and
    stores under it the code the mailer sent to the normal form of the
    address, replacing whatever was stored under that identifier; the
    client address handed to the mailer is Unknown when the request has
    none; all other cache entries and the record store stay. *)
Theorem captcha_issue_outcome (purpose : Purpose) client request_id email w :
  let endpoint := match purpose with
                  | REGISTER => user_req_register_captcha
                  | RECOVER_PASSWORD => user_req_recover_captcha
                  end in
  (fst (endpoint client request_id email w) = Raise INVALID_OPERATION <->
   validate_email email = None) /\
  (validate_email email = None -> snd (endpoint client request_id email w) = w) /\
  (forall n, validate_email email = Some n ->
     fst (endpoint client request_id email w) = Ok request_id /\
     cache (snd (endpoint client request_id email w)) !! request_id
     = Some (send_captcha n purpose (default "Unknown" client)) /\
     (forall k, k <> request_id ->
                cache (snd (endpoint client request_id email w)) !! k = cache w !! k) /\
     db (snd (endpoint client request_id email w)) = db w).
Proof.
  cbn zeta. rewrite (captcha_eq purpose).
  destruct (validate_email email) as [n|]; cbn [fst snd db cache].
  - split; [split; discriminate|]. split; [discriminate|].
    intros n' [= <-]. split; [reflexivity|]. split; [|split; [|reflexivity]].
    + rewrite lookup_insert_eq. destruct client; reflexivity.
    + intros k Hk. apply lookup_insert_ne. congruence.
  - split; [split; reflexivity|]. split; [reflexivity | discriminate].
Qed.

(** X20.  Recover raises NOT_FOUND exactly when no stored user has the
    submitted email string, whatever challenge the request carries; the
    challenge is then not consumed and nothing is written. *)
Theorem user_recover_not_found_iff salt commit_ok email password captcha request_id w :
  (fst (user_recover salt commit_ok email password captcha request_id w)
   = Raise NOT_FOUND <->
   forall u, u ∈ users (db w) -> UserDb.email u <> email) /\
  (fst (user_recover salt commit_ok email password captcha request_id w)
   = Raise NOT_FOUND ->
   snd (user_recover salt commit_ok email password captcha request_id w) = w).
Proof.
  rewrite user_recover_eq.
  destruct (u_first _ _) as [[i u]|] eqn:Hf.
  - apply first_Some in Hf as (Hl & Hh & _). cbn in Hh. apply String.eqb_eq in Hh.
    assert (u ∈ users (db w)) as Hu by (eapply list_elem_of_lookup_2, Hl).
    destruct (cache w !! request_id) as [code|];
      [destruct (String.eqb code captcha); [destruct commit_ok|]|];
      cbn [fst snd]; (split; [split|]); try discriminate;
      intros Hno; exfalso; exact (Hno u Hu Hh).
  - cbn [fst snd]. split; [|reflexivity]. split; [|reflexivity]. intros _ u Hu Hemail.
    pose proof (proj1 (first_None _ _ _) Hf u Hu) as Hh. cbn in Hh.
    apply String.eqb_neq in Hh. contradiction.
Qed.

Lemma first_at {R C : Type} (get : C -> R -> string) c (rows : list R) i r :
  rows !! i = Some r ->
  Sql.holds get c r = true ->
  (forall j r', (j < i)%nat -> rows !! j = Some r' -> Sql.holds get c r' = false) ->
  Sql.first get c rows = Some (i, r).
Proof.
  intros Hl Hr Hlt. unfold Sql.first.
  assert (Sql.first_index get c rows = Some i) as ->; [|rewrite Hl; reflexivity].
  revert i Hl Hlt. induction rows as [|x rows IH]; intros [|i] Hl Hlt;
    try discriminate; cbn in *.
  - injection Hl as ->. rewrite Hr. reflexivity.
  - rewrite (Hlt 0%nat x) by (lia || reflexivity).
    rewrite (IH i Hl); [reflexivity|].
    intros j r' Hj. apply (Hlt (S j)). lia.
Qed.

(** X21.  Recover then login: in a world reachable through the
    handlers, if [checkpw] accepts every password against its own hash,
    then right after a successful recovery a login with the returned
    username and the new password succeeds, for the uid of the recovered
    user. *)
Theorem user_recover_then_login
    (checkpw_hashpw : forall p s, checkpw p (hashpw p s) = true)
    salt commit_ok email password captcha request_id w name w' :
  reachable w ->
  user_recover salt commit_ok email password captcha request_id w = (Ok name, w') ->
  exists uid,
    (exists u, u ∈ users (db w) /\ UserDb.email u = email /\
               UserDb.username u = name /\ UserDb.uid u = uid) /\
    user_login name password w'
    = (Ok (Token.mk (create_access_token [("sub", name); ("id", uid)]
                                         ACCESS_TOKEN_EXPIRE_MINUTES)
                    "bearer"), w').
Proof.
  intros Hreach Hrec.
  apply user_recover_Ok in Hrec as (i & u & Hf & _ & _ & -> & ->).
  apply first_Some in Hf as (Hl & Hh & _). cbn in Hh. apply String.eqb_eq in Hh.
  pose proof (reachable_usernames_nodup w Hreach) as Hnd.
  exists (UserDb.uid u). split.
  { exists u. repeat split; auto. eapply list_elem_of_lookup_2, Hl. }
  rewrite user_login_eq. cbn [db users]. unfold u_first.
  rewrite (first_at _ _ _ i (UserDb.set_password (hashpw password salt) u)).
  - cbn. rewrite checkpw_hashpw. reflexivity.
  - apply list_lookup_insert_eq. eapply lookup_lt_Some, Hl.
  - cbn. apply String.eqb_refl.
  - intros j r' Hj Hr'. rewrite list_lookup_insert_ne in Hr' by lia.
    cbn. apply String.eqb_neq. intros Hname.
    assert (j = i); [|lia].
    eapply NoDup_lookup; [exact Hnd | |].
    + rewrite list_lookup_fmap, Hr'. cbn. rewrite Hname. reflexivity.
    + rewrite list_lookup_fmap, Hl. reflexivity.
Qed.
End RecoveryMore.

(** ** Compositions *)

Section Compositions.
Context `{collab : Collaborators}.

(** X22.  Change password then login: in a world reachable through the
    handlers, if [checkpw] accepts every password against its own hash,
    then after an accepted profile update that carries a new password, a
    login with the target's username and that password succeeds. *)
Theorem user_update_password_then_login
    (checkpw_hashpw : forall p s, checkpw p (hashpw p s) = true)
    salt uid body user w i record pw :
  reachable w ->
  u_first (Sql.Eq (ucol UserDb.c_uid) (Sql.Lit uid)) (users (db w)) = Some (i, record) ->
  User.permission user = Permission.ADMIN \/
  (uid = User.uid user /\ changes_permission body record = false) ->
  UpdateUser.password body = Some pw ->
  fst (user_update salt true uid body user w) = Ok tt /\
  user_login (UserDb.username record) pw (snd (user_update salt true uid body user w))
  = (Ok (Token.mk (create_access_token
                     [("sub", UserDb.username record); ("id", UserDb.uid record)]
                     ACCESS_TOKEN_EXPIRE_MINUTES)
                  "bearer"),
     snd (user_update salt true uid body user w)).
Proof.
  intros Hreach Hf Hauth Hpw.
  assert (user_update salt true uid body user w
          = (Ok tt, mkWorld (mkDb (<[i := patch_profile salt body record]> (users (db w)))
                                  (addresses (db w)))
                            (cache w))) as ->.
  { rewrite user_update_eq, Hf.
    destruct Hauth as [Hadmin | [-> Hch]].
    - unfold verify_user. rewrite Hadmin. cbn. rewrite !andb_false_r. reflexivity.
    - rewrite String.eqb_refl, Hch. reflexivity. }
  cbn [fst snd]. split; [reflexivity|].
  apply first_Some in Hf as (Hl & _).
  pose proof (reachable_usernames_nodup w Hreach) as Hnd.
  pose proof (patch_profile_identity salt body record) as Hid.
  unfold identity in Hid. injection Hid as Huid _ Hname.
  assert (UserDb.password (patch_profile salt body record) = hashpw pw salt) as Hhash.
  { unfold patch_profile. rewrite Hpw. reflexivity. }
  rewrite user_login_eq. cbn [db users]. unfold u_first.
  rewrite (first_at _ _ _ i (patch_profile salt body record)).
  - rewrite Hhash, checkpw_hashpw, Huid, Hname. reflexivity.
  - apply list_lookup_insert_eq. eapply lookup_lt_Some, Hl.
  - cbn. rewrite Hname. apply String.eqb_refl.
  - intros j r' Hj Hr'. rewrite list_lookup_insert_ne in Hr' by lia.
    cbn. apply String.eqb_neq. intros Hsame.
    assert (j = i); [|lia].
    eapply NoDup_lookup; [exact Hnd | |].
    + rewrite list_lookup_fmap, Hr'. cbn. rewrite Hsame. reflexivity.
    + rewrite list_lookup_fmap, Hl. reflexivity.
Qed.

Lemma handle_single_default r w :
  is_update_address r = false ->
  single_default w -> single_default (handle r w).
Proof.
  intros Hr Hinv. destruct r; try discriminate Hr; cbn [handle].
  9: apply add_address_single_default; exact Hinv.
  9: { rewrite delete_address_eq.
       destruct (a_first _ _) as [[i a]|]; [|exact Hinv].
       destruct commit_ok; [|exact Hinv].
       intros who. cbn [snd db addresses].
       etrans; [apply filter_delete_le | apply Hinv]. }
  all: assert (forall w', addresses (db w') = addresses (db w) -> single_default w')
    as Hsame by (intros w' Hw' who; rewrite Hw'; apply Hinv).
  all: apply Hsame.
  all: rewrite ?(captcha_eq REGISTER), ?(captcha_eq RECOVER_PASSWORD), ?user_reg_eq,
         ?user_login_eq, ?user_recover_eq, ?user_update_eq.
  all: repeat match goal with
              | |- context [match ?x with _ => _ end] => destruct x
              end; reflexivity.
Qed.

(** X23.  Every handler except [update_address] keeps the
    single-default invariant: a sequence of requests that contains no
    address update leads from a world in which every user has at most one
    default address to a world in which that still holds. *)
Theorem serve_single_default rs w :
  Forall (fun r => is_update_address r = false) rs ->
  single_default w ->
  single_default (serve rs w).
Proof.
  unfold serve. intros Hrs. revert w.
  induction Hrs as [|r rs Hr _ IH]; intros w Hinv; cbn; [exact Hinv|].
  apply IH. by apply handle_single_default.
Qed.

(** X24.  The registration flow.  After a registration challenge has
    been issued for an address, a registration that carries the returned
    request identifier and the mailed code succeeds, provided the address
    is the submitted one, the gender parses, the username is free and the
    commit is accepted.  The new user has the request identifier as uid,
    and the cache afterwards no longer holds the challenge. *)
Theorem register_flow client request_id salt email username password gender w n g :
  validate_email email = Some n ->
  parse_gender gender = Some g ->
  (forall u, u ∈ users (db w) -> UserDb.username u <> username) ->
  let w1 := snd (user_req_register_captcha client request_id email w) in
  let code := send_captcha n REGISTER (client_ip client) in
  let out := user_reg salt true email username password gender code request_id w1 in
  fst out = Ok tt /\
  users (db (snd out))
  = users (db w) ++ [new_user_row salt n username password request_id g w] /\
  cache (snd out) = delete request_id (cache w) /\
  consumed request_id (snd out).
Proof.
  intros Hn Hg Hfree. cbn zeta.
  rewrite (captcha_eq REGISTER), Hn. cbn [snd].
  rewrite user_reg_eq, Hn, Hg. cbn [db cache].
  assert (is_not_None (u_first (duplicate_clause n username) (users (db w))) = false)
    as ->.
  { destruct (is_not_None _) eqn:Hdup; [|reflexivity].
    apply duplicate_check_username in Hdup as (u & Hu & Hname).
    exfalso. exact (Hfree u Hu Hname). }
  rewrite lookup_insert_eq, String.eqb_refl. cbn [fst snd db users cache].
  split; [reflexivity|]. split; [reflexivity|]. split.
  - apply delete_insert_eq.
  - apply no_entry_consumed. cbn. apply lookup_delete_eq.
Qed.
End Compositions.

(** ** The further properties at concrete requests *)

Lemma demo_checkpw_hashpw p s : Demo.checkpw p (Demo.hashpw p s) = true.
Proof.
  unfold Demo.checkpw, Demo.hashpw.
  induction p as [|a p IH]; simpl.
  - destruct s; reflexivity.
  - destruct (Ascii.ascii_dec a a); [exact IH | contradiction].
Qed.

Lemma demo_served_reachable : reachable Demo.served.
Proof. apply reachable_serve, reach_init. Qed.

(** Bob keeps his identity through a recovery. *)
Lemma serve_keeps_identity_witness :
  exists u',
    users (db (serve [Recover "s9" true "bob@example.com" "new" "271828" "r1"]
                     Demo.two_users)) !! 1%nat = Some u' /\
    UserDb.uid u' = "b0b" /\ UserDb.email u' = "bob@example.com" /\
    UserDb.username u' = "bob".
Proof.
  apply (serve_keeps_identity
           [Recover "s9" true "bob@example.com" "new" "271828" "r1"]
           Demo.two_users 1 Demo.bob_row).
  reflexivity.
Defined.

(** In the served history the rows named bob are one row. *)
Lemma reachable_usernames_unique_witness :
  users (db Demo.served) !! 1%nat = Some
    (UserDb.mk "r2" "bob@example.com" "bob" "pw-b$s2" Permission.USER None 1) /\
  1%nat = 1%nat.
Proof.
  assert (users (db Demo.served) !! 1%nat
          = Some (UserDb.mk "r2" "bob@example.com" "bob" "pw-b$s2" Permission.USER
                            None 1)) as Hbob by (vm_compute; reflexivity).
  split; [exact Hbob|].
  exact (reachable_usernames_unique Demo.served 1 1 _ _ demo_served_reachable
                                    Hbob Hbob eq_refl).
Defined.

(** The row of the first registration. *)
Lemma user_reg_inserted_row_witness :
  exists row,
    users (db (snd (user_reg "s" true "Bob@EXAMPLE.com" "bob" "pw" "1" "271828" "r1"
                             Demo.fresh))) = [row] /\
    UserDb.uid row = "r1" /\ UserDb.email row = "Bob@example.com".
Proof.
  assert (user_reg "s" true "Bob@EXAMPLE.com" "bob" "pw" "1" "271828" "r1" Demo.fresh
          = (Ok tt, snd (user_reg "s" true "Bob@EXAMPLE.com" "bob" "pw" "1" "271828"
                                  "r1" Demo.fresh))) as Hreg
      by (vm_compute; reflexivity).
  destruct (user_reg_inserted_row _ _ _ _ _ _ _ _ _ _ Hreg)
    as (row & Hrows & Huid & Hemail & _).
  exists row. split; [exact Hrows|]. split; [exact Huid|].
  assert (Some "Bob@example.com" = Some (UserDb.email row)) as [= <-]
      by exact Hemail.
  reflexivity.
Defined.

(** The username alice is taken, the username carol is not. *)
Lemma user_reg_conflict_iff_witness :
  fst (user_reg "s" true "new@example.com" "alice" "pw" "1" "000000" "zz"
                Demo.two_users) = Raise RESOURCE_CONFILCT.
Proof.
  destruct (user_reg_conflict_iff (collab := Demo.env)
              "s" true "new@example.com" "alice" "pw" "1" "000000" "zz" Demo.two_users
              "new@example.com" 1%Z eq_refl eq_refl) as [[_ Htaken] _].
  apply Htaken. exists Demo.alice_row. split; [apply list_elem_of_here | reflexivity].
Defined.


(** After Alice has registered and logged in, alice is taken. *)
Lemma user_reg_username_stays_taken_witness :
  fst (user_reg "t" true "other@example.com" "alice" "pw2" "1" "271828" "r7"
                (serve [Login "alice" "pw"]
                       (snd (user_reg "s" true "alice@example.com" "alice" "pw" "0"
                                      "271828" "r1" Demo.fresh))))
  = Raise RESOURCE_CONFILCT.
Proof.
  assert (user_reg "s" true "alice@example.com" "alice" "pw" "0" "271828" "r1"
                   Demo.fresh
          = (Ok tt, snd (user_reg "s" true "alice@example.com" "alice" "pw" "0"
                                  "271828" "r1" Demo.fresh))) as Hreg
      by (vm_compute; reflexivity).
  rewrite (user_reg_username_stays_taken (collab := Demo.env)
             _ _ _ _ _ _ _ _ _ _ Hreg
             [Login "alice" "pw"] "t" true "other@example.com" "pw2" "1" "271828" "r7"
             "other@example.com" 1%Z eq_refl eq_refl).
  reflexivity.
Defined.

(** Bob cannot make himself ADMIN. *)
Lemma user_update_roles_need_admin_witness :
  UserDb.permission
    <$> users (db (snd (user_update "s" true "b0b" Demo.promote_patch Demo.bob
                                    Demo.two_users)))
  = [Permission.ADMIN; Permission.USER].
Proof.
  rewrite (user_update_roles_need_admin "s" true "b0b" Demo.promote_patch Demo.bob
                                        Demo.two_users);
    [reflexivity | discriminate].
Defined.

(** Alice sets Bob's birthday and password. *)
Lemma user_update_applies_patch_witness :
  exists record',
    users (db (snd (user_update "s" true "b0b" Demo.birthday_password_patch Demo.alice
                                Demo.two_users))) !! 1%nat = Some record' /\
    UserDb.birthday record' = Some "2000-01-01" /\
    UserDb.permission record' = Permission.USER.
Proof.
  destruct (user_update_applies_patch "s" "b0b" Demo.birthday_password_patch Demo.alice
                                      Demo.two_users 1 Demo.bob_row)
    as (record' & Hout & Hbirth & _ & Hperm & _);
    [vm_compute; reflexivity | left; reflexivity |].
  exists record'. rewrite Hout. split; [reflexivity|]. split; [exact Hbirth | exact Hperm].
Defined.

(** Alice updates a uid nobody has. *)
Lemma user_update_not_found_iff_witness :
  fst (user_update "s" true "n0b0dy" Demo.empty_patch Demo.alice Demo.two_users)
  = Raise NOT_FOUND.
Proof.
  destruct (user_update_not_found_iff (collab := Demo.env)
              "s" true "n0b0dy" Demo.empty_patch Demo.alice Demo.two_users eq_refl)
    as [[_ Hnone] _].
  apply Hnone. intros u Hu.
  apply elem_of_cons in Hu as [-> | Hu]; [discriminate|].
  apply elem_of_cons in Hu as [-> | Hu]; [discriminate | inversion Hu].
Defined.

(** Bob adds a default address next to his default ad1. *)
Lemma add_default_address_is_only_default_witness :
  count_default "b0b"
    (addresses (db (snd (add_address "ad9" true Demo.default_address Demo.bob
                                     Demo.one_each)))) = 1%nat.
Proof.
  destruct (add_default_address_is_only_default "ad9" Demo.default_address Demo.bob
                                                Demo.one_each eq_refl)
    as (_ & Hone & _).
  exact Hone.
Defined.

(** Bob deletes: one row goes. *)
Lemma delete_address_effect_witness :
  S (length (addresses (db (snd (delete_address true "ad0" Demo.bob Demo.one_each)))))
  = 2%nat.
Proof.
  assert (delete_address true "ad0" Demo.bob Demo.one_each
          = (Ok tt, snd (delete_address true "ad0" Demo.bob Demo.one_each))) as Hdel
      by (vm_compute; reflexivity).
  destruct (delete_address_effect _ _ _ _ _ Hdel) as (Hlen & _).
  exact Hlen.
Defined.

(** A login reads no challenge away and adds none. *)
Lemma handle_cache_shrinks_witness :
  cache Demo.two_users !! "r1" = Some "271828".
Proof.
  apply (handle_cache_shrinks (Login "bob" "pw-b") Demo.two_users "r1" "271828");
    [reflexivity | vm_compute; reflexivity].
Defined.

(** A login with a wrong password raises what login may raise. *)
Lemma outcome_may_raise_witness :
  AUTH_FAILED ∈ may_raise (Login "bob" "wrong").
Proof.
  apply (outcome_may_raise (Login "bob" "wrong") Demo.two_users AUTH_FAILED).
  vm_compute. reflexivity.
Defined.

(** A registration with a wrong code leaves the world as it was. *)
Lemma failed_request_keeps_store_witness :
  handle (Register "s" true "carol@example.com" "carol" "pw" "1" "000000" "r1")
         Demo.two_users = Demo.two_users.
Proof.
  destruct (failed_request_keeps_store
              (Register "s" true "carol@example.com" "carol" "pw" "1" "000000" "r1")
              Demo.two_users CAPTCHA_FAILED) as [_ Hsame];
    [vm_compute; reflexivity | apply Hsame; discriminate].
Defined.

(** Bob recovers with the challenge of the history and logs in. *)
Lemma user_recover_then_login_witness :
  exists uid,
    fst (user_login "bob" "new"
           (snd (user_recover "s9" true "bob@example.com" "new" "271828" "r3"
                              Demo.served)))
    = Ok (Token.mk (create_access_token [("sub", "bob"); ("id", uid)]
                                        ACCESS_TOKEN_EXPIRE_MINUTES)
                   "bearer").
Proof.
  assert (user_recover "s9" true "bob@example.com" "new" "271828" "r3" Demo.served
          = (Ok "bob", snd (user_recover "s9" true "bob@example.com" "new" "271828"
                                         "r3" Demo.served))) as Hrec
      by (vm_compute; reflexivity).
  destruct (user_recover_then_login (collab := Demo.env) demo_checkpw_hashpw
              _ _ _ _ _ _ _ _ _ demo_served_reachable Hrec) as (uid & _ & Hlogin).
  exists uid. rewrite Hlogin. reflexivity.
Defined.

(** The administrator sets Bob's password; Bob logs in with it. *)
Lemma user_update_password_then_login_witness :
  fst (user_login "bob" "hunter2"
         (snd (user_update "s" true "r2" Demo.birthday_password_patch Demo.admin
                           Demo.served)))
  = Ok (Token.mk (create_access_token [("sub", "bob"); ("id", "r2")]
                                      ACCESS_TOKEN_EXPIRE_MINUTES)
                 "bearer").
Proof.
  destruct (user_update_password_then_login (collab := Demo.env) demo_checkpw_hashpw
              "s" "r2" Demo.birthday_password_patch Demo.admin Demo.served 1
              (UserDb.mk "r2" "bob@example.com" "bob" "pw-b$s2" Permission.USER None 1)
              "hunter2" demo_served_reachable)
    as [_ Hlogin];
    [vm_compute; reflexivity | left; reflexivity | reflexivity |].
  exact (f_equal fst Hlogin).
Defined.

(** Bob adds a default address and deletes one: still at most one default. *)
Lemma serve_single_default_witness :
  single_default (serve [AddAddress "ad9" true Demo.default_address Demo.bob;
                         DeleteAddress true "ad1" Demo.bob]
                        Demo.two_addresses).
Proof.
  apply serve_single_default.
  - repeat constructor.
  - intros uid. unfold count_default, Demo.two_addresses, Demo.addr.
    cbn [db addresses List.filter AddressDb.uid AddressDb.is_default].
    rewrite !andb_false_r. cbn. lia.
Defined.

(** Carol goes through the registration flow. *)
Lemma register_flow_witness :
  fst (user_reg "s" true "carol@example.com" "carol" "pw" "2"
                (send_captcha "carol@example.com" REGISTER "10.0.0.1") "r5"
                (snd (user_req_register_captcha (Some "10.0.0.1") "r5"
                                                "carol@example.com" Demo.two_users)))
  = Ok tt.
Proof.
  destruct (register_flow (collab := Demo.env)
              (Some "10.0.0.1") "r5" "s" "carol@example.com" "carol" "pw" "2"
              Demo.two_users "carol@example.com" 2%Z eq_refl eq_refl)
    as (Hok & _); [|exact Hok].
  intros u Hu.
  apply elem_of_cons in Hu as [-> | Hu]; [discriminate|].
  apply elem_of_cons in Hu as [-> | Hu]; [discriminate | inversion Hu].
Defined.
